(** * yaml-language-server: schema URI resolution and request handlers

    A shallow embedding of
    - [src/languageservice/utils/schemaUrls.ts]          ([checkSchemaURI]),
    - [src/languageserver/handlers/languageHandlers.ts]  ([LanguageHandlers]),
    - [src/languageserver/handlers/requestHandlers.ts]   ([RequestHandlers]),
    - [src/yamlServerInit.ts]                            ([YAMLServerInit]),
    together with the properties the specification states about them and
    further properties read off the code. *)

From Stdlib Require Import NArith ZArith Ascii String.
From stdpp Require Import base decidable option numbers list gmap.

Local Open Scope N_scope.

(** ** JavaScript strings

    A JavaScript string is a finite sequence of UTF-16 code units.  The
    built-ins used by the sources ([trim], [toLowerCase], [===]) are
    modelled on that representation. *)

Abbreviation js_string := (list N).

(** The code units of an ASCII literal. *)
Definition utf16 (s : string) : js_string :=
  N_of_ascii <$> list_ascii_of_string s.

(** [a === b] on strings. *)
Definition strictEq (a b : js_string) : bool := bool_decide (a = b).

(** WhiteSpace and LineTerminator code points of ECMAScript, the characters
    removed by [String.prototype.trim].  All of them are in the BMP, so the
    test is exact on code units. *)
Definition isWhiteSpace (c : N) : bool :=
  ((9 <=? c) && (c <=? 13))           (* TAB, LF, VT, FF, CR *)
  || (c =? 32)                        (* SPACE *)
  || (c =? 160)                       (* NO-BREAK SPACE *)
  || (c =? 5760)                      (* U+1680 *)
  || ((8192 <=? c) && (c <=? 8202))   (* U+2000 .. U+200A *)
  || (c =? 8232) || (c =? 8233)       (* LS, PS *)
  || (c =? 8239)                      (* U+202F *)
  || (c =? 8287)                      (* U+205F *)
  || (c =? 12288)                     (* U+3000 *)
  || (c =? 65279).                    (* U+FEFF *)

Fixpoint trimStart (s : js_string) : js_string :=
  match s with
  | [] => []
  | c :: rest => if isWhiteSpace c then trimStart rest else s
  end.

Definition trimEnd (s : js_string) : js_string :=
  reverse (trimStart (reverse s)).

(** [s.trim()] *)
Definition trim (s : js_string) : js_string := trimEnd (trimStart s).

(** Lower-casing of one ASCII code unit: [A-Z] to [a-z], the rest fixed. *)
Definition asciiLower (c : N) : N :=
  if (65 <=? c) && (c <=? 90) then c + 32 else c.

Section ToLowerCase.
(** [String.prototype.toLowerCase] maps every ASCII code unit on its own
    ([asciiLower]) and keeps the white space characters, which have no
    case.  What it does to another code unit is given by the Unicode
    tables and may depend on the units around it (surrogate pairs, final
    sigma).  That part is a parameter: it receives the units before, the
    unit itself and the units after, and returns the units to emit. *)
Variable unicodeLower : js_string -> N -> js_string -> js_string.

Fixpoint lowerFrom (before s : js_string) : js_string :=
  match s with
  | [] => []
  | c :: rest =>
      (if c <? 128 then [asciiLower c]
       else if isWhiteSpace c then [c]
       else unicodeLower before c rest)
        ++ lowerFrom (before ++ [c]) rest
  end.

(** [s.toLowerCase()] *)
Definition toLowerCase (s : js_string) : js_string := lowerFrom [] s.
End ToLowerCase.

(** A lower-casing table for the examples: KELVIN SIGN (U+212A) becomes [k],
    LATIN CAPITAL LETTER I WITH DOT ABOVE (U+0130) becomes [i] followed by
    U+0307, every other unit outside ASCII is kept. *)
Definition sampleUnicodeLower (_ : js_string) (c : N) (_ : js_string) : js_string :=
  if c =? 8490 then [107]
  else if c =? 304 then [105; 775]
  else [c].

(** ** schemaUrls.ts *)

Definition KUBERNETES_SCHEMA_URL : js_string :=
  utf16 "https://raw.githubusercontent.com/yannh/kubernetes-json-schema/master/v1.20.5-standalone-strict/all.json".

Definition JSON_SCHEMASTORE_URL : js_string :=
  utf16 "https://www.schemastore.org/api/json/catalog.json".

(** The alias token compared against in [checkSchemaURI]. *)
Definition KUBERNETES_ALIAS : js_string := utf16 "kubernetes".

Section CheckSchemaURI.
Variable unicodeLower : js_string -> N -> js_string -> js_string.

(** [WorkspaceFolder] (vscode-languageserver) and [URI] (vscode-uri) are
    only passed through by [checkSchemaURI]. *)
Variables WorkspaceFolder URI : Type.

(** The two helpers imported from [./paths]. *)
Variable isRelativePath : js_string -> bool.
Variable relativeToAbsolutePath :
  list WorkspaceFolder -> URI -> js_string -> js_string.

(** The first test of [checkSchemaURI]:
    [uri.trim().toLowerCase() === 'kubernetes']. *)
Definition isKubernetesAlias (uri : js_string) : bool :=
  strictEq (toLowerCase unicodeLower (trim uri)) KUBERNETES_ALIAS.

Definition checkSchemaURI
    (workspaceFolders : list WorkspaceFolder) (workspaceRoot : URI)
    (uri : js_string) : js_string :=
  if isKubernetesAlias uri then KUBERNETES_SCHEMA_URL
  else if isRelativePath uri then
    relativeToAbsolutePath workspaceFolders workspaceRoot uri
  else uri.
End CheckSchemaURI.

Arguments checkSchemaURI unicodeLower {WorkspaceFolder URI}
  isRelativePath relativeToAbsolutePath workspaceFolders workspaceRoot uri.

(** Case-insensitive equality of two strings,
    [a.toLowerCase() === b.toLowerCase()]. *)
Definition equalsIgnoreCase
    (unicodeLower : js_string -> N -> js_string -> js_string)
    (a b : js_string) : bool :=
  strictEq (toLowerCase unicodeLower a) (toLowerCase unicodeLower b).

(** The same with the ASCII letters only: equal once the letters [A-Z] of
    both are lower-cased. *)
Definition asciiEqualsIgnoreCase (a b : js_string) : bool :=
  strictEq (asciiLower <$> a) (asciiLower <$> b).

(** ** Protocol data (vscode-languageserver) *)

Record TextDocument := {
  td_uri : js_string;
  td_version : Z;
  td_text : js_string;
}.

Record Position := { line : N; character : N }.

Record TextDocumentIdentifier := { uri : js_string }.

Record DocumentSymbolParams := { dsp_textDocument : TextDocumentIdentifier }.

Record TextDocumentPositionParams := {
  textDocument : TextDocumentIdentifier;
  position : Position;
}.

Record FileEvent := { fe_uri : js_string; fe_type : N }.

Record DidChangeWatchedFilesParams := { changes : list FileEvent }.

(** [yamlSettings.documents]: the open documents, in the order in which
    they were opened. *)
Definition TextDocuments_get (documents : list TextDocument) (u : js_string)
    : option TextDocument :=
  find (fun d => strictEq (td_uri d) u) documents.

Definition TextDocuments_all (documents : list TextDocument)
    : list TextDocument := documents.

(** The part of [SettingsState] read by the handlers. *)
Record SettingsState := {
  documents : list TextDocument;
  hierarchicalDocumentSymbolSupport : bool;
  specificValidatorPaths : list js_string;
}.

(** ** The handler classes *)

Section Handlers.
(** State of the language service behind the [LanguageService] interface. *)
Variable S : Type.
(** [DocumentSymbol] / [SymbolInformation] and [CompletionItem] payloads. *)
Variables Symbol CompletionItem : Type.
(** A schema modification request ([SchemaAdditions | SchemaDeletions |
    SchemaDeletionsAll]) and the type of its [action] tag. *)
Variables Modification Action : Type.
Context `{EqDecision Action}.
Variable action : Modification -> Action.
(** The members of [MODIFICATION_ACTIONS]. *)
Variables MODIFICATION_ACTIONS_add MODIFICATION_ACTIONS_delete
          MODIFICATION_ACTIONS_deleteAll : Action.

Record CompletionList := {
  items : list CompletionItem;
  isIncomplete : bool;
}.

(** The methods of [LanguageService] used by the handlers, as functions of
    the service state. *)
Variable resetSchema : js_string -> S -> bool * S.
Variables findDocumentSymbols findDocumentSymbols2 :
  TextDocument -> S -> list Symbol * S.
Variable doComplete :
  TextDocument -> Position -> bool -> S -> CompletionList * S.
Variables modifySchemaContent deleteSchemaContent deleteSchemasWhole :
  Modification -> S -> S.
(** [isKubernetesAssociatedDocument] of [parser/isKubernetes]. *)
Variable isKubernetesAssociatedDocument :
  TextDocument -> list js_string -> bool.

(** Calls issued to the collaborators, in the order they are made. *)
Inductive Call :=
| Call_resetSchema (u : js_string)
| Call_validate (d : TextDocument)
| Call_findDocumentSymbols (d : TextDocument)
| Call_findDocumentSymbols2 (d : TextDocument)
| Call_doComplete (d : TextDocument) (p : Position) (isKubernetes : bool)
| Call_modifySchemaContent (m : Modification)
| Call_deleteSchemaContent (m : Modification)
| Call_deleteSchemasWhole (m : Modification).

(** [LanguageHandlers.previousCall]; every field is optional. *)
Record PreviousCall := {
  pc_uri : option js_string;
  pc_time : option Z;
  pc_request : option (list Symbol);
}.

Record World := {
  languageService : S;
  yamlSettings : SettingsState;
  isTest : bool;
  previousCall : PreviousCall;
  (** successive readings of [new Date().getTime()] and how many of them
      were consumed *)
  clock : nat -> Z;
  ticks : nat;
  calls : list Call;
}.

Definition initialWorld (s : S) (settings : SettingsState)
    (clk : nat -> Z) : World :=
  {| languageService := s; yamlSettings := settings; isTest := false;
     previousCall := {| pc_uri := None; pc_time := None; pc_request := None |};
     clock := clk; ticks := 0; calls := [] |}.

(** Handlers are state transformers over [World]. *)
Definition M (A : Type) : Type := World -> A * World.

#[local] Instance M_ret : MRet M := fun A a w => (a, w).
#[local] Instance M_bind : MBind M :=
  fun A B f m w => let '(a, w') := m w in f a w'.

Definition gets {A} (f : World -> A) : M A := fun w => (f w, w).

Definition setService (s : S) (w : World) : World :=
  {| languageService := s; yamlSettings := yamlSettings w;
     isTest := isTest w; previousCall := previousCall w;
     clock := clock w; ticks := ticks w; calls := calls w |}.

Definition addCalls (cs : list Call) (w : World) : World :=
  {| languageService := languageService w; yamlSettings := yamlSettings w;
     isTest := isTest w; previousCall := previousCall w;
     clock := clock w; ticks := ticks w; calls := calls w ++ cs |}.

Definition tick (w : World) : World :=
  {| languageService := languageService w; yamlSettings := yamlSettings w;
     isTest := isTest w; previousCall := previousCall w;
     clock := clock w; ticks := Datatypes.S (ticks w); calls := calls w |}.

Definition record (c : Call) : M unit := fun w => (tt, addCalls [c] w).

(** Runs a method of the language service on its state. *)
Definition onService {A} (f : S -> A * S) : M A := fun w =>
  let '(a, s') := f (languageService w) in (a, setService s' w).

(** [new Date().getTime()] *)
Definition getTime : M Z := fun w => (clock w (ticks w), tick w).

Definition setPreviousCall (pc : PreviousCall) : M unit := fun w =>
  (tt, {| languageService := languageService w; yamlSettings := yamlSettings w;
          isTest := isTest w; previousCall := pc;
          clock := clock w; ticks := ticks w; calls := calls w |}).

Definition languageService_resetSchema (u : js_string) : M bool :=
  record (Call_resetSchema u);; onService (resetSchema u).

Definition languageService_findDocumentSymbols (d : TextDocument)
    : M (list Symbol) :=
  record (Call_findDocumentSymbols d);; onService (findDocumentSymbols d).

Definition languageService_findDocumentSymbols2 (d : TextDocument)
    : M (list Symbol) :=
  record (Call_findDocumentSymbols2 d);; onService (findDocumentSymbols2 d).

Definition languageService_doComplete (d : TextDocument) (p : Position)
    (isKubernetes : bool) : M CompletionList :=
  record (Call_doComplete d p isKubernetes);;
  onService (doComplete d p isKubernetes).

Definition languageService_modifySchemaContent (m : Modification) : M unit :=
  record (Call_modifySchemaContent m);;
  onService (fun s => (tt, modifySchemaContent m s)).

Definition languageService_deleteSchemaContent (m : Modification) : M unit :=
  record (Call_deleteSchemaContent m);;
  onService (fun s => (tt, deleteSchemaContent m s)).

Definition languageService_deleteSchemasWhole (m : Modification) : M unit :=
  record (Call_deleteSchemasWhole m);;
  onService (fun s => (tt, deleteSchemasWhole m s)).

Definition validationHandler_validate (d : TextDocument) : M unit :=
  record (Call_validate d).

Definition documents_get (u : js_string) : M (option TextDocument) :=
  gets (fun w => TextDocuments_get (documents (yamlSettings w)) u).

Definition documents_all : M (list TextDocument) :=
  gets (fun w => TextDocuments_all (documents (yamlSettings w))).

(** [array.forEach(f)] *)
Fixpoint forEach {A} (f : A -> M unit) (l : list A) : M unit :=
  match l with
  | [] => mret tt
  | x :: rest => f x;; forEach f rest
  end.

(** *** languageHandlers.ts *)

(** The guard of the early return in [documentSymbolHandler], with the
    short-circuit evaluation of its [&&] chain: the result is the cached
    list when it is to be returned. *)
Definition cachedDocumentSymbols (u : js_string)
    : M (option (list Symbol)) :=
  test ← gets isTest;
  prev ← gets previousCall;
  if (test : bool) then mret None
  else match pc_request prev with
  | None => mret None
  | Some request =>
      match pc_time prev with
      | None => mret None
      | Some time =>
          if (time =? 0)%Z then mret None
          else if negb (bool_decide (pc_uri prev = Some u)) then mret None
          else
            now ← getTime;
            if ((now : Z) - time <? 100)%Z then mret (Some request)
            else mret None
      end
  end.

(** [documentSymbolHandler]; [None] is the [undefined] returned for a
    document that is not open. *)
Definition documentSymbolHandler (documentSymbolParams : DocumentSymbolParams)
    : M (option (list Symbol)) :=
  let u := uri (dsp_textDocument documentSymbolParams) in
  document ← documents_get u;
  match document with
  | None => mret None
  | Some document =>
      cached ← cachedDocumentSymbols u;
      match cached with
      | Some request => mret (Some request)
      | None =>
          hierarchical ←
            gets (fun w => hierarchicalDocumentSymbolSupport (yamlSettings w));
          res ← (if (hierarchical : bool)
                 then languageService_findDocumentSymbols2 document
                 else languageService_findDocumentSymbols document);
          now ← getTime;
          setPreviousCall
            {| pc_time := Some now; pc_uri := Some u; pc_request := Some res |};;
          mret (Some res)
      end
  end.

(** [completionHandler]; the result is the value the returned promise
    resolves to. *)
Definition completionHandler (textDocumentPosition : TextDocumentPositionParams)
    : M CompletionList :=
  textDocument ← documents_get (uri (textDocument textDocumentPosition));
  let result := {| items := []; isIncomplete := false |} in
  match textDocument with
  | None => mret result
  | Some textDocument =>
      paths ← gets (fun w => specificValidatorPaths (yamlSettings w));
      languageService_doComplete textDocument
        (position textDocumentPosition)
        (isKubernetesAssociatedDocument textDocument paths)
  end.

(** The [forEach] over [change.changes], threading the local
    [hasChanges]. *)
Fixpoint resetChanged (cs : list FileEvent) (hasChanges : bool) : M bool :=
  match cs with
  | [] => mret hasChanges
  | c :: rest =>
      r ← languageService_resetSchema (fe_uri c);
      resetChanged rest (if (r : bool) then true else hasChanges)
  end.

Definition watchedFilesHandler (change : DidChangeWatchedFilesParams)
    : M unit :=
  hasChanges ← resetChanged (changes change) false;
  if (hasChanges : bool) then
    all ← documents_all;
    forEach validationHandler_validate all
  else mret tt.

(** *** requestHandlers.ts *)

Definition registerSchemaModificationNotificationHandler
    (modifications : Modification) : M unit :=
  if decide (action modifications = MODIFICATION_ACTIONS_add) then
    languageService_modifySchemaContent modifications
  else if decide (action modifications = MODIFICATION_ACTIONS_delete) then
    languageService_deleteSchemaContent modifications
  else if decide (action modifications = MODIFICATION_ACTIONS_deleteAll) then
    languageService_deleteSchemasWhole modifications
  else mret tt.

(** What [resetSchema] answers for each of the given URIs when called on
    them in order, and the service state after the last call. *)
Fixpoint resetSchemaAnswers (us : list js_string) (s : S) : list bool * S :=
  match us with
  | [] => ([], s)
  | u :: rest =>
      let '(r, s1) := resetSchema u s in
      let '(rs, s2) := resetSchemaAnswers rest s1 in
      (r :: rs, s2)
  end.

(** The text document synchronisation replaces an open document by its
    new revision. *)
Definition changeDocument (d : TextDocument) (w : World) : World :=
  {| languageService := languageService w;
     yamlSettings :=
       {| documents :=
            (fun old => if strictEq (td_uri old) (td_uri d) then d else old)
              <$> documents (yamlSettings w);
          hierarchicalDocumentSymbolSupport :=
            hierarchicalDocumentSymbolSupport (yamlSettings w);
          specificValidatorPaths := specificValidatorPaths (yamlSettings w) |};
     isTest := isTest w; previousCall := previousCall w;
     clock := clock w; ticks := ticks w; calls := calls w |}.
End Handlers.

Arguments World S Symbol Modification : clear implicits.
Arguments languageService {S Symbol Modification} w.
Arguments yamlSettings {S Symbol Modification} w.
Arguments isTest {S Symbol Modification} w.
Arguments previousCall {S Symbol Modification} w.
Arguments clock {S Symbol Modification} w _.
Arguments ticks {S Symbol Modification} w.
Arguments calls {S Symbol Modification} w.
Arguments pc_uri {Symbol} p.
Arguments pc_time {Symbol} p.
Arguments pc_request {Symbol} p.
Arguments items {CompletionItem} c.
Arguments isIncomplete {CompletionItem} c.
Arguments Call_resetSchema {Modification} u.
Arguments Call_validate {Modification} d.
Arguments Call_findDocumentSymbols {Modification} d.
Arguments Call_findDocumentSymbols2 {Modification} d.
Arguments Call_doComplete {Modification} d p isKubernetes.
Arguments Call_modifySchemaContent {Modification} m.
Arguments Call_deleteSchemaContent {Modification} m.
Arguments Call_deleteSchemasWhole {Modification} m.
Arguments initialWorld {S Symbol Modification} s settings clk.
Arguments setService {S Symbol Modification} s w.
Arguments addCalls {S Symbol Modification} cs w.
Arguments tick {S Symbol Modification} w.
Arguments changeDocument {S Symbol Modification} d w.
Arguments documentSymbolHandler {S Symbol Modification}
  findDocumentSymbols findDocumentSymbols2 documentSymbolParams _.
Arguments cachedDocumentSymbols {S Symbol Modification} u _.
Arguments completionHandler {S Symbol CompletionItem Modification}
  doComplete isKubernetesAssociatedDocument textDocumentPosition _.
Arguments watchedFilesHandler {S Symbol Modification} resetSchema change _.
Arguments resetChanged {S Symbol Modification} resetSchema cs hasChanges _.
Arguments resetSchemaAnswers {S} resetSchema us s.
Arguments registerSchemaModificationNotificationHandler
  {S Symbol Modification Action EqDecision0} action
  MODIFICATION_ACTIONS_add MODIFICATION_ACTIONS_delete
  MODIFICATION_ACTIONS_deleteAll
  modifySchemaContent deleteSchemaContent deleteSchemasWhole modifications _.

(** ** languageservice/utils/paths *)

(** A parsed URI ([vscode-uri]), reduced to the components that locate a
    resource. *)
Record URI := {
  scheme : js_string;
  authority : js_string;
  path : js_string;
}.

Definition isAlpha (c : N) : bool :=
  ((65 <=? c) && (c <=? 90)) || ((97 <=? c) && (c <=? 122)).

Definition isDigit (c : N) : bool := (48 <=? c) && (c <=? 57).

(** Characters allowed after the first one of a scheme: letters, digits,
    [+], [-] and [.]. *)
Definition isSchemeChar (c : N) : bool :=
  isAlpha c || isDigit c || (c =? 43) || (c =? 45) || (c =? 46).

(** A scheme as [vscode-uri] accepts it: a letter followed by scheme
    characters. *)
Definition validScheme (s : js_string) : bool :=
  match s with
  | [] => false
  | c :: rest => isAlpha c && forallb isSchemeChar rest
  end.

Fixpoint schemeTail (s : js_string) : bool :=
  match s with
  | [] => false
  | c :: rest => if c =? 58 then true else isSchemeChar c && schemeTail rest
  end.

(** The string starts with a scheme and its colon. *)
Definition hasScheme (s : js_string) : bool :=
  match s with
  | [] => false
  | c :: rest => isAlpha c && schemeTail rest
  end.

(** The string is an absolute path: it starts with a slash. *)
Definition isAbsolutePath (s : js_string) : bool :=
  match s with
  | c :: _ => c =? 47
  | [] => false
  end.

(** An absolute URI is a string that carries its scheme. *)
Definition isAbsoluteURI (s : js_string) : bool := hasScheme s.

Definition uriToString (u : URI) : js_string :=
  scheme u ++ utf16 "://" ++ authority u ++ path u.

(** The URI of [rel] below the base [base]. *)
Definition resolvePath (base : URI) (rel : js_string) : URI :=
  {| scheme := scheme base; authority := authority base;
     path := path base ++ utf16 "/" ++ rel |}.

(** Modelled from the spec: [isRelativePath] of [languageservice/utils/paths]
    is not part of the sources at hand.  The specification calls an
    identifier relative when it is "syntactically relative (no scheme, not
    absolute-path)". *)
Definition isRelativePath (s : js_string) : bool :=
  negb (hasScheme s) && negb (isAbsolutePath s).

Section RelativeToAbsolutePath.
Variable WorkspaceFolder : Type.
(** Resolution of an identifier inside one workspace folder; the
    specification does not say when a folder takes an identifier, so this
    is left open: [None] when the folder does not. *)
Variable resolveInFolder : WorkspaceFolder -> js_string -> option URI.

Fixpoint resolveInFolders (folders : list WorkspaceFolder) (rel : js_string)
    : option URI :=
  match folders with
  | [] => None
  | folder :: rest =>
      match resolveInFolder folder rel with
      | Some r => Some r
      | None => resolveInFolders rest rel
      end
  end.

(** Modelled from the spec: [relativeToAbsolutePath] of
    [languageservice/utils/paths] is not part of the sources at hand.  The
    specification: the identifier is resolved "against each workspace
    folder in order, falling back to [workspaceRoot], producing an absolute
    URI; if no workspace folder is configured, resolution against the root
    must still succeed (root acts as the base)". *)
Definition relativeToAbsolutePath (workspaceFolders : list WorkspaceFolder)
    (workspaceRoot : URI) (rel : js_string) : js_string :=
  match resolveInFolders workspaceFolders rel with
  | Some r => uriToString r
  | None => uriToString (resolvePath workspaceRoot rel)
  end.
End RelativeToAbsolutePath.

Arguments resolveInFolders {WorkspaceFolder} resolveInFolder folders rel.
Arguments relativeToAbsolutePath {WorkspaceFolder} resolveInFolder
  workspaceFolders workspaceRoot rel.

(** ** languageservice/services/yamlSchemaService *)

Inductive MODIFICATION_ACTIONS := MA_delete | MA_add | MA_deleteAll.

#[global] Instance MODIFICATION_ACTIONS_eq_dec : EqDecision MODIFICATION_ACTIONS.
Proof. solve_decision. Defined.

(** A schema document: the fragment found at each (path, key). *)
Abbreviation SchemaDocument Fragment := (gmap (js_string * js_string) Fragment).

(** Fragments changed at run time: [Some f] was added, [None] was deleted. *)
Abbreviation Overlay Fragment :=
  (gmap (js_string * js_string) (option Fragment)).

Section SchemaStore.
(** JSON content of a schema fragment. *)
Variable Fragment : Type.

(** Modelled from the spec: the request types of [yamlSchemaService] are
    not part of the sources at hand.  The specification: "a tagged request
    carrying one of {add, delete, deleteAll} plus a target schema URI and,
    for add/delete, a JSON-pointer-like path and value/key". *)
Inductive SchemaModification :=
| SchemaAdditions (schema path key : js_string) (content : Fragment)
| SchemaDeletions (schema path key : js_string)
| SchemaDeletionsAll (schema : js_string).

Definition sm_action (m : SchemaModification) : MODIFICATION_ACTIONS :=
  match m with
  | SchemaAdditions _ _ _ _ => MA_add
  | SchemaDeletions _ _ _ => MA_delete
  | SchemaDeletionsAll _ => MA_deleteAll
  end.

Definition sm_schema (m : SchemaModification) : js_string :=
  match m with
  | SchemaAdditions u _ _ _ | SchemaDeletions u _ _ | SchemaDeletionsAll u => u
  end.

(** Modelled from the spec: the schema store of [yamlSchemaService] is not
    part of the sources at hand.  The specification: run-time changes are
    "a persistent small overlay structure layered on top of the fetched
    base schema rather than mutating the fetched document in place". *)
Record SchemaStore := {
  fetched : gmap js_string (SchemaDocument Fragment);
  overlay : gmap js_string (Overlay Fragment);
}.

Definition fetchedSchema (st : SchemaStore) (u : js_string) : SchemaDocument Fragment :=
  default ∅ (fetched st !! u).

Definition overlayOf (st : SchemaStore) (u : js_string) : Overlay Fragment :=
  default ∅ (overlay st !! u).

Definition applyOverlay (base : SchemaDocument Fragment) (ov : Overlay Fragment) : SchemaDocument Fragment :=
  merge (fun b o => match o with
                    | Some (Some f) => Some f
                    | Some None => None
                    | None => b
                    end) base ov.

(** The schema the store holds for [u]: the fetched one under its
    overlay. *)
Definition storedSchema (st : SchemaStore) (u : js_string) : SchemaDocument Fragment :=
  applyOverlay (fetchedSchema st u) (overlayOf st u).

(** Modelled from the spec: "addition merges a schema fragment into the
    properties of an existing (or newly created) in-memory schema at uri
    without a fetch". *)
Definition store_modifySchemaContent (m : SchemaModification)
    (st : SchemaStore) : SchemaStore :=
  match m with
  | SchemaAdditions u p k content =>
      {| fetched := fetched st;
         overlay := <[u := <[(p, k) := Some content]> (overlayOf st u)]> (overlay st) |}
  | _ => st
  end.

(** Modelled from the spec: "deletion removes a named path from it". *)
Definition store_deleteSchemaContent (m : SchemaModification)
    (st : SchemaStore) : SchemaStore :=
  match m with
  | SchemaDeletions u p k =>
      {| fetched := fetched st;
         overlay := <[u := <[(p, k) := None]> (overlayOf st u)]> (overlay st) |}
  | _ => st
  end.

(** Modelled from the spec: "deletionAll removes every in-memory-added
    fragment for uri, reverting to the last fetched state (or to empty if
    none was ever fetched)"; "deleteAll simply clears the overlay". *)
Definition store_deleteSchemasWhole (m : SchemaModification)
    (st : SchemaStore) : SchemaStore :=
  match m with
  | SchemaDeletionsAll u =>
      {| fetched := fetched st; overlay := delete u (overlay st) |}
  | _ => st
  end.

(** Modelled from the spec: "resetSchema(uri) evicts any cached entry for
    uri; returns whether an entry existed". *)
Definition store_resetSchema (u : js_string) (st : SchemaStore)
    : bool * SchemaStore :=
  (bool_decide (is_Some (fetched st !! u)),
   {| fetched := delete u (fetched st); overlay := overlay st |}).
End SchemaStore.

Arguments SchemaAdditions {Fragment} schema path key content.
Arguments SchemaDeletions {Fragment} schema path key.
Arguments SchemaDeletionsAll {Fragment} schema.
Arguments sm_action {Fragment} m.
Arguments sm_schema {Fragment} m.
Arguments fetched {Fragment} s.
Arguments overlay {Fragment} s.
Arguments fetchedSchema {Fragment} st u.
Arguments overlayOf {Fragment} st u.
Arguments applyOverlay {Fragment} base ov.
Arguments storedSchema {Fragment} st u.
Arguments store_modifySchemaContent {Fragment} m st.
Arguments store_deleteSchemaContent {Fragment} m st.
Arguments store_deleteSchemasWhole {Fragment} m st.
Arguments store_resetSchema {Fragment} u st.

(** ** Sample data for the examples *)

(** A workspace folder with its parsed base URI and its name; it takes the
    identifiers that start with its name. *)
Record SampleFolder := { sf_base : URI; sf_name : js_string }.

Definition sampleResolveInFolder (f : SampleFolder) (rel : js_string)
    : option URI :=
  if strictEq (take (length (sf_name f)) rel) (sf_name f)
  then Some (resolvePath (sf_base f) rel)
  else None.

Definition sampleRoot : URI :=
  {| scheme := utf16 "file"; authority := []; path := utf16 "/home/user/project" |}.

Definition sampleFolders : list SampleFolder :=
  [ {| sf_base := {| scheme := utf16 "file"; authority := [];
                     path := utf16 "/home/user/other" |};
       sf_name := utf16 "schemas" |} ].

(** [checkSchemaURI] with the helpers of [paths] as modelled above. *)
Definition sampleCheckSchemaURI
    (folders : list SampleFolder) (root : URI) (u : js_string) : js_string :=
  checkSchemaURI sampleUnicodeLower isRelativePath
    (relativeToAbsolutePath sampleResolveInFolder) folders root u.

(** A schema store that has fetched two schemas. *)
Definition sampleStore : SchemaStore js_string :=
  {| fetched := {[ utf16 "file:///s/a.json" := {[ (utf16 "/properties", utf16 "kind") := utf16 "{}" ]};
                   utf16 "file:///s/b.json" := ∅ ]};
     overlay := ∅ |}.

(** A stand-in for the symbol provider: the outline of a document is its
    text, as one symbol.  It is a function of the document revision alone. *)
Definition sampleFindDocumentSymbols (d : TextDocument)
    (st : SchemaStore js_string) : list js_string * SchemaStore js_string :=
  ([td_text d], st).

(** A stand-in for the completion provider. *)
Definition sampleDoComplete (d : TextDocument) (p : Position) (isKubernetes : bool)
    (st : SchemaStore js_string)
    : CompletionList js_string * SchemaStore js_string :=
  ({| items := [td_text d]; isIncomplete := false |}, st).

Definition sampleIsKubernetesAssociatedDocument
    (d : TextDocument) (paths : list js_string) : bool :=
  bool_decide (td_uri d ∈ paths).

(** A modification request as it arrives: the numeric tag and the body. *)
Definition SampleRequest : Type := N * SchemaModification js_string.

Definition sampleDocumentA : TextDocument :=
  {| td_uri := utf16 "file:///w/a.yaml"; td_version := 1; td_text := utf16 "kind: Pod" |}.

(** The next revision of [sampleDocumentA]. *)
Definition sampleDocumentA2 : TextDocument :=
  {| td_uri := utf16 "file:///w/a.yaml"; td_version := 2; td_text := utf16 "spec: {}" |}.

Definition sampleDocumentB : TextDocument :=
  {| td_uri := utf16 "file:///w/b.yaml"; td_version := 1; td_text := utf16 "a: 1" |}.

Definition sampleSettings : SettingsState :=
  {| documents := [sampleDocumentA; sampleDocumentB];
     hierarchicalDocumentSymbolSupport := true;
     specificValidatorPaths := [] |}.

(** The clock reads 1000, 1010, 1020, ... *)
Definition sampleClock (n : nat) : Z := (1000 + 10 * Z.of_nat n)%Z.

Definition sampleWorld : World (SchemaStore js_string) js_string SampleRequest :=
  initialWorld sampleStore sampleSettings sampleClock.

Definition sampleSymbolParams : DocumentSymbolParams :=
  {| dsp_textDocument := {| uri := utf16 "file:///w/a.yaml" |} |}.

Definition sampleDocumentSymbolHandler :=
  documentSymbolHandler (Modification := SampleRequest)
    sampleFindDocumentSymbols sampleFindDocumentSymbols.

(** The world after a first symbol request for [sampleDocumentA] ... *)
Definition sampleWorldAfterRequest
    : World (SchemaStore js_string) js_string SampleRequest :=
  (sampleDocumentSymbolHandler sampleSymbolParams sampleWorld).2.

(** ... and after the document was then edited. *)
Definition sampleWorldAfterEdit
    : World (SchemaStore js_string) js_string SampleRequest :=
  changeDocument sampleDocumentA2 sampleWorldAfterRequest.

(** The request handler over the sample store: the tags are those of a
    numeric enumeration, the operations act on the body of the request. *)
Definition sampleRequestHandler :=
  registerSchemaModificationNotificationHandler (Symbol := js_string)
    (fst : SampleRequest -> N) 1 0 2
    (fun m => store_modifySchemaContent m.2)
    (fun m => store_deleteSchemaContent m.2)
    (fun m => store_deleteSchemasWhole m.2).

Definition sampleAddition : SampleRequest :=
  (1, SchemaAdditions (utf16 "file:///s/a.json") (utf16 "/properties")
        (utf16 "name") (utf16 "{}")).

(** A request with a tag outside the enumeration. *)
Definition sampleUnknownRequest : SampleRequest :=
  (7, SchemaDeletionsAll (utf16 "file:///s/a.json")).

Definition sampleWatchedFilesHandler :=
  watchedFilesHandler (Symbol := js_string) (Modification := SampleRequest)
    (store_resetSchema (Fragment := js_string)).

Definition sampleCompletionHandler :=
  completionHandler (Symbol := js_string) (Modification := SampleRequest)
    sampleDoComplete sampleIsKubernetesAssociatedDocument.

(** ** The remaining handlers of languageHandlers.ts and requestHandlers.ts *)

(** A JSON value of a settings object. *)
Inductive JsValue :=
| JsUndefined
| JsNull
| JsBoolean (b : bool)
| JsNumber (z : Z)
| JsString (s : js_string).

(** An object used as a record of settings: its own enumerable properties. *)
Abbreviation JsObject := (gmap js_string JsValue).

(** [{ ...a, ...b }]: the properties of [b] win over those of [a]. *)
Definition objectSpread (a b : JsObject) : JsObject := b ∪ a.

Inductive JsError := TypeError.

(** How the evaluation of a function body ends. *)
Inductive Completion (A : Type) :=
| Normal (a : A)
| Throw (e : JsError).

Arguments Normal {A} a.
Arguments Throw {A} e.

Record FormattingOptions := { tabSize : N; insertSpaces : bool }.

Record DocumentFormattingParams := {
  dfp_textDocument : TextDocumentIdentifier;
  dfp_options : FormattingOptions;
}.

Record DocumentOnTypeFormattingParams := {
  otf_textDocument : TextDocumentIdentifier;
  otf_position : Position;
  otf_ch : js_string;
  otf_options : FormattingOptions;
}.

Record DocumentLinkParams := { dlp_textDocument : TextDocumentIdentifier }.

Record FoldingRangeParams := { frp_textDocument : TextDocumentIdentifier }.

(** The client capabilities (vscode-languageserver) read by the server;
    every member is optional. *)
Record FoldingRangeClientCapabilities := {
  rangeLimit : option N;
  lineFoldingOnly : option bool;
}.

Record DocumentSymbolClientCapabilities := {
  dsc_hierarchicalDocumentSymbolSupport : option bool;
}.

Record RangeFormattingClientCapabilities := {
  rfc_dynamicRegistration : option bool;
}.

Record TextDocumentClientCapabilities := {
  tdc_documentSymbol : option DocumentSymbolClientCapabilities;
  tdc_rangeFormatting : option RangeFormattingClientCapabilities;
  tdc_foldingRange : option FoldingRangeClientCapabilities;
}.

Record WorkspaceClientCapabilities := {
  wcc_workspaceFolders : option bool;
}.

Record ClientCapabilities := {
  cc_workspace : option WorkspaceClientCapabilities;
  cc_textDocument : option TextDocumentClientCapabilities;
}.

Section OtherHandlers.
Context {S Symbol Modification : Type}.
(** Payloads of the results. *)
Variables DocumentLink TextEdit Hover FoldingRange CodeAction : Type.
(** [CodeActionParams]; the handler reads the URI of its [textDocument]. *)
Variable CodeActionParams : Type.
Variable codeAction_textDocument : CodeActionParams -> TextDocumentIdentifier.

(** More methods of [LanguageService], as functions of the service state.
    [doHoverDetail] may be handed [undefined] for the document. *)
Variable findLinks : TextDocument -> S -> list DocumentLink * S.
Variable doFormat : TextDocument -> JsObject -> S -> list TextEdit * S.
Variable doDocumentOnTypeFormatting :
  TextDocument -> DocumentOnTypeFormattingParams -> S -> option (list TextEdit) * S.
Variable doHoverDetail : option TextDocument -> Position -> S -> option Hover * S.
Variable getFoldingRanges :
  TextDocument -> option FoldingRangeClientCapabilities -> S
  -> option (list FoldingRange) * S.
Variable getCodeAction :
  TextDocument -> CodeActionParams -> S -> option (list CodeAction) * S.

#[local] Existing Instances M_ret M_bind.

Local Abbreviation H := (M S Symbol Modification).
Local Abbreviation get_document u := (documents_get S Symbol Modification u).
Local Abbreviation call f := (onService S Symbol Modification f).

(** [documentLinkHandler]; the result is the value the promise resolves
    to. *)
Definition documentLinkHandler (params : DocumentLinkParams)
    : H (list DocumentLink) :=
  document ← get_document (uri (dlp_textDocument params));
  match document with
  | None => mret []
  | Some document => call (findLinks document)
  end.

(** [formatterHandler]; [yamlFormatterSettings] is the member of
    [yamlSettings] of that name, the result [None] is [undefined]. *)
Definition formatterHandler (yamlFormatterSettings : JsObject)
    (formatParams : DocumentFormattingParams) : H (option (list TextEdit)) :=
  document ← get_document (uri (dfp_textDocument formatParams));
  match document with
  | None => mret None
  | Some document =>
      let customFormatterSettings :=
        objectSpread
          {[ utf16 "tabWidth" := JsNumber (Z.of_N (tabSize (dfp_options formatParams))) ]}
          yamlFormatterSettings in
      edits ← call (doFormat document customFormatterSettings);
      mret (Some edits)
  end.

Definition formatOnTypeHandler (params : DocumentOnTypeFormattingParams)
    : H (option (list TextEdit)) :=
  document ← get_document (uri (otf_textDocument params));
  match document with
  | None => mret None
  | Some document => call (doDocumentOnTypeFormatting document params)
  end.

Definition hoverHandler (textDocumentPositionParams : TextDocumentPositionParams)
    : H (option Hover) :=
  document ← get_document (uri (textDocument textDocumentPositionParams));
  match document with
  | None => mret None
  | Some document =>
      call (doHoverDetail (Some document) (position textDocumentPositionParams))
  end.

(** [foldingRangeHandler]; [capabilities] is [yamlSettings.capabilities] as
    stored by [connectionInitialized].  Reading [foldingRange] of a missing
    [textDocument] member throws. *)
Definition foldingRangeHandler (capabilities : ClientCapabilities)
    (params : FoldingRangeParams) : H (Completion (option (list FoldingRange))) :=
  textDocument ← get_document (uri (frp_textDocument params));
  match textDocument with
  | None => mret (Normal None)
  | Some textDocument =>
      match cc_textDocument capabilities with
      | None => mret (Throw TypeError)
      | Some textDocumentCapabilities =>
          ranges ← call (getFoldingRanges textDocument
                           (tdc_foldingRange textDocumentCapabilities));
          mret (Normal ranges)
      end
  end.

Definition codeActionHandler (params : CodeActionParams)
    : H (option (list CodeAction)) :=
  textDocument ← get_document (uri (codeAction_textDocument params));
  match textDocument with
  | None => mret None
  | Some textDocument => call (getCodeAction textDocument params)
  end.

(** The handler of [HoverDetailRequest] registered by
    [RequestHandlers.registerHandlers]: the document is passed on as
    [documents.get] returned it. *)
Definition hoverDetailRequestHandler (params : TextDocumentPositionParams)
    : H (option Hover) :=
  document ← get_document (uri (textDocument params));
  call (doHoverDetail document (position params)).
End OtherHandlers.

Arguments documentLinkHandler {S Symbol Modification DocumentLink}
  findLinks params _.
Arguments formatterHandler {S Symbol Modification TextEdit}
  doFormat yamlFormatterSettings formatParams _.
Arguments formatOnTypeHandler {S Symbol Modification TextEdit}
  doDocumentOnTypeFormatting params _.
Arguments hoverHandler {S Symbol Modification Hover}
  doHoverDetail textDocumentPositionParams _.
Arguments foldingRangeHandler {S Symbol Modification FoldingRange}
  getFoldingRanges capabilities params _.
Arguments codeActionHandler {S Symbol Modification CodeAction CodeActionParams}
  codeAction_textDocument getCodeAction params _.
Arguments hoverDetailRequestHandler {S Symbol Modification Hover}
  doHoverDetail params _.

(** ** yamlServerInit.ts *)

(** [WorkspaceFolder] of vscode-languageserver. *)
Record WorkspaceFolder := { wf_uri : js_string; wf_name : js_string }.

Record InitializeParams := {
  ip_capabilities : ClientCapabilities;
  (** [string | null] *)
  ip_rootUri : option js_string;
  (** [WorkspaceFolder[] | null | undefined] *)
  ip_workspaceFolders : option (list WorkspaceFolder);
}.

(** The members of [yamlSettings] written by [connectionInitialized],
    around those read by the handlers ([ys_core]).
    [ys_hasWorkspaceFolderCapability] is [None] when it holds
    [undefined]. *)
Record ServerSettings := {
  ys_core : SettingsState;
  ys_capabilities : option ClientCapabilities;
  ys_workspaceRoot : option URI;
  ys_workspaceFolders : list WorkspaceFolder;
  ys_clientDynamicRegisterSupport : bool;
  ys_hasWorkspaceFolderCapability : option bool;
}.

(** Truth value of an optional boolean member: [undefined] and [false] are
    falsy. *)
Definition truthy (b : option bool) : bool := default false b.

(** Truth value of a [string | null]: [null] and the empty string are
    falsy. *)
Definition truthyString (s : option js_string) : bool :=
  match s with
  | Some (_ :: _) => true
  | _ => false
  end.

(** [TextDocumentSyncKind.Incremental] *)
Definition TextDocumentSyncKind_Incremental : N := 2.

(** The capabilities announced in the [InitializeResult]. *)
Record ServerCapabilities := {
  textDocumentSync : N;
  completionProvider_resolveProvider : bool;
  hoverProvider : bool;
  documentSymbolProvider : bool;
  documentFormattingProvider : bool;
  documentOnTypeFormattingProvider_firstTriggerCharacter : js_string;
  documentRangeFormattingProvider : bool;
  documentLinkProvider : JsObject;
  foldingRangeProvider : bool;
  codeActionProvider : bool;
  executeCommandProvider_commands : list js_string;
  workspace_workspaceFolders_changeNotifications : bool;
  workspace_workspaceFolders_supported : bool;
}.

Section YAMLServerInit.
Context {S Symbol Modification : Type}.
(** [getLanguageService] of [yamlLanguageService], as a function of the
    client capabilities. *)
Variable getCustomLanguageService : ClientCapabilities -> S.
(** [URI.parse] of vscode-uri. *)
Variable URI_parse : js_string -> URI.
(** The values of [YamlCommands]. *)
Variable YamlCommands : list js_string.
(** [workspaceFoldersChanged] of [languageservice/utils/paths]; the second
    argument is the event. *)
Variable WorkspaceFoldersChangeEvent : Type.
Variable workspaceFoldersChanged :
  list WorkspaceFolder -> WorkspaceFoldersChangeEvent -> list WorkspaceFolder.
(** The readings of the system clock seen by the handlers. *)
Variable systemClock : nat -> Z.

(** The state of a [YAMLServerInit]: its settings and, once
    [connectionInitialized] ran, the [LanguageHandlers] it created (with
    the language service and the settings they share). *)
Record YAMLServerInit := {
  si_yamlSettings : ServerSettings;
  si_languageHandler : option (World S Symbol Modification);
}.

(** [connectionInitialized] *)
Definition connectionInitialized (params : InitializeParams)
    (server : YAMLServerInit) : YAMLServerInit * ServerCapabilities :=
  let yamlSettings := si_yamlSettings server in
  let capabilities := ip_capabilities params in
  let languageService := getCustomLanguageService capabilities in
  let workspaceRoot :=
    if truthyString (ip_rootUri params)
    then URI_parse <$> ip_rootUri params
    else ys_workspaceRoot yamlSettings in
  let workspaceFolders := default [] (ip_workspaceFolders params) in
  let hierarchicalDocumentSymbolSupport :=
    match cc_textDocument capabilities with
    | None => false
    | Some textDocument =>
        match tdc_documentSymbol textDocument with
        | None => false
        | Some documentSymbol =>
            truthy (dsc_hierarchicalDocumentSymbolSupport documentSymbol)
        end
    end in
  let clientDynamicRegisterSupport :=
    match cc_textDocument capabilities with
    | None => false
    | Some textDocument =>
        match tdc_rangeFormatting textDocument with
        | None => false
        | Some rangeFormatting => truthy (rfc_dynamicRegistration rangeFormatting)
        end
    end in
  let hasWorkspaceFolderCapability :=
    match cc_workspace capabilities with
    | None => None
    | Some workspace => Some (truthy (wcc_workspaceFolders workspace))
    end in
  let core :=
    {| documents := documents (ys_core yamlSettings);
       hierarchicalDocumentSymbolSupport := hierarchicalDocumentSymbolSupport;
       specificValidatorPaths := specificValidatorPaths (ys_core yamlSettings) |} in
  ({| si_yamlSettings :=
        {| ys_core := core;
           ys_capabilities := Some capabilities;
           ys_workspaceRoot := workspaceRoot;
           ys_workspaceFolders := workspaceFolders;
           ys_clientDynamicRegisterSupport := clientDynamicRegisterSupport;
           ys_hasWorkspaceFolderCapability := hasWorkspaceFolderCapability |};
      (* registerHandlers: new LanguageHandlers(...) *)
      si_languageHandler := Some (initialWorld languageService core systemClock) |},
   {| textDocumentSync := TextDocumentSyncKind_Incremental;
      completionProvider_resolveProvider := false;
      hoverProvider := false;
      documentSymbolProvider := true;
      documentFormattingProvider := false;
      documentOnTypeFormattingProvider_firstTriggerCharacter := [10];
      documentRangeFormattingProvider := false;
      documentLinkProvider := ∅;
      foldingRangeProvider := true;
      codeActionProvider := true;
      executeCommandProvider_commands := YamlCommands;
      workspace_workspaceFolders_changeNotifications := true;
      workspace_workspaceFolders_supported := true |}).

(** The [onInitialized] callback of the constructor: whether the listener
    for workspace folder changes gets registered. *)
Definition onInitialized (server : YAMLServerInit) : bool :=
  truthy (ys_hasWorkspaceFolderCapability (si_yamlSettings server)).

(** The listener registered by [onInitialized]. *)
Definition onDidChangeWorkspaceFolders (changedFolders : WorkspaceFoldersChangeEvent)
    (server : YAMLServerInit) : YAMLServerInit :=
  let yamlSettings := si_yamlSettings server in
  {| si_yamlSettings :=
       {| ys_core := ys_core yamlSettings;
          ys_capabilities := ys_capabilities yamlSettings;
          ys_workspaceRoot := ys_workspaceRoot yamlSettings;
          ys_workspaceFolders :=
            workspaceFoldersChanged (ys_workspaceFolders yamlSettings) changedFolders;
          ys_clientDynamicRegisterSupport :=
            ys_clientDynamicRegisterSupport yamlSettings;
          ys_hasWorkspaceFolderCapability :=
            ys_hasWorkspaceFolderCapability yamlSettings |};
     si_languageHandler := si_languageHandler server |}.
End YAMLServerInit.

Arguments YAMLServerInit S Symbol Modification : clear implicits.
Arguments onDidChangeWorkspaceFolders
  {S Symbol Modification WorkspaceFoldersChangeEvent}
  workspaceFoldersChanged changedFolders server.
Arguments si_yamlSettings {S Symbol Modification} y.
Arguments si_languageHandler {S Symbol Modification} y.

(** ** Sample data for the other handlers and the initialisation *)

Definition sampleFindLinks (d : TextDocument) (st : SchemaStore js_string)
    : list js_string * SchemaStore js_string := ([td_uri d], st).

Definition sampleDoFormat (d : TextDocument) (options : JsObject)
    (st : SchemaStore js_string) : list js_string * SchemaStore js_string :=
  ([td_text d], st).

Definition sampleDoDocumentOnTypeFormatting (d : TextDocument)
    (params : DocumentOnTypeFormattingParams) (st : SchemaStore js_string)
    : option (list js_string) * SchemaStore js_string := (Some [otf_ch params], st).

Definition sampleDoHoverDetail (d : option TextDocument) (p : Position)
    (st : SchemaStore js_string) : option js_string * SchemaStore js_string :=
  (td_text <$> d, st).

Definition sampleGetFoldingRanges (d : TextDocument)
    (capabilities : option FoldingRangeClientCapabilities)
    (st : SchemaStore js_string) : option (list N) * SchemaStore js_string :=
  (Some [], st).

Definition sampleGetCodeAction (d : TextDocument) (params : TextDocumentIdentifier)
    (st : SchemaStore js_string) : option (list js_string) * SchemaStore js_string :=
  (Some [td_uri d], st).

Definition sampleClosedDocument : TextDocumentIdentifier :=
  {| uri := utf16 "file:///w/closed.yaml" |}.

Definition sampleOpenDocument : TextDocumentIdentifier :=
  {| uri := utf16 "file:///w/a.yaml" |}.

Definition samplePositionParams (t : TextDocumentIdentifier)
    : TextDocumentPositionParams :=
  {| textDocument := t; position := {| line := 0; character := 0 |} |}.

Definition sampleFormattingParams : DocumentFormattingParams :=
  {| dfp_textDocument := sampleOpenDocument;
     dfp_options := {| tabSize := 4; insertSpaces := true |} |}.

Definition sampleFormatterSettings : JsObject :=
  {[ utf16 "printWidth" := JsNumber 80 ]}.

(** Capabilities of a client that declares the hierarchical symbols and the
    workspace folders ... *)
Definition sampleCapabilities : ClientCapabilities :=
  {| cc_workspace := Some {| wcc_workspaceFolders := Some true |};
     cc_textDocument :=
       Some {| tdc_documentSymbol :=
                 Some {| dsc_hierarchicalDocumentSymbolSupport := Some true |};
               tdc_rangeFormatting := None;
               tdc_foldingRange := None |} |}.

(** ... and of a client that declares nothing. *)
Definition sampleBareCapabilities : ClientCapabilities :=
  {| cc_workspace := None; cc_textDocument := None |}.

Definition sampleInitializeParams : InitializeParams :=
  {| ip_capabilities := sampleCapabilities;
     ip_rootUri := None;
     ip_workspaceFolders := None |}.

Definition sampleServer
    : YAMLServerInit (SchemaStore js_string) js_string SampleRequest :=
  {| si_yamlSettings :=
       {| ys_core :=
            {| documents := [sampleDocumentA; sampleDocumentB];
               hierarchicalDocumentSymbolSupport := false;
               specificValidatorPaths := [] |};
          ys_capabilities := None;
          ys_workspaceRoot := Some sampleRoot;
          ys_workspaceFolders := [];
          ys_clientDynamicRegisterSupport := false;
          ys_hasWorkspaceFolderCapability := None |};
     si_languageHandler := None |}.

Definition sampleURIParse (s : js_string) : URI :=
  {| scheme := utf16 "file"; authority := []; path := s |}.

Definition sampleConnectionInitialized :=
  connectionInitialized (Symbol := js_string) (Modification := SampleRequest)
    (fun _ => sampleStore) sampleURIParse [] sampleClock.

(** * Properties *)

(** ** JavaScript strings *)

Lemma asciiLower_bound (c : N) : asciiLower c < 128 -> c < 128.
Proof.
  unfold asciiLower.
  destruct (N.leb_spec 65 c), (N.leb_spec c 90); simpl; lia.
Qed.

Lemma isWhiteSpace_asciiLower (c : N) :
  isWhiteSpace c = true -> asciiLower c = c.
Proof.
  unfold isWhiteSpace, asciiLower. intros Hws.
  destruct (N.leb_spec 65 c), (N.leb_spec c 90); simpl; try reflexivity.
  exfalso. revert Hws.
  repeat match goal with
         | |- context [?a <=? ?b] => destruct (N.leb_spec a b); try lia
         | |- context [?a =? ?b] => destruct (N.eqb_spec a b); try lia
         end; simpl; congruence.
Qed.

Lemma lowerFrom_ascii unicodeLower (s before : js_string) :
  Forall (fun c => c < 128) s ->
  lowerFrom unicodeLower before s = asciiLower <$> s.
Proof.
  intros H. revert before.
  induction H as [|c r Hc _ IH]; intros before; simpl; [reflexivity|].
  destruct (N.ltb_spec c 128); [|lia].
  simpl. now rewrite IH.
Qed.

Lemma toLowerCase_ascii unicodeLower (s : js_string) :
  Forall (fun c => c < 128) s ->
  toLowerCase unicodeLower s = asciiLower <$> s.
Proof. apply lowerFrom_ascii. Qed.

Lemma strictEq_true (a b : js_string) : strictEq a b = true <-> a = b.
Proof. unfold strictEq. apply bool_decide_eq_true. Qed.

Lemma lowerFrom_whiteSpace_first unicodeLower (c : N) (rest before : js_string) :
  isWhiteSpace c = true ->
  lowerFrom unicodeLower before (c :: rest)
  = c :: lowerFrom unicodeLower (before ++ [c]) rest.
Proof.
  intros Hc. simpl. rewrite Hc, (isWhiteSpace_asciiLower c Hc).
  now destruct (c <? 128).
Qed.

Lemma lowerFrom_whiteSpace_last unicodeLower (c : N) (s before : js_string) :
  isWhiteSpace c = true ->
  exists front, lowerFrom unicodeLower before (s ++ [c]) = front ++ [c].
Proof.
  intros Hc. revert before. induction s as [|d s IH]; intros before.
  - exists []. simpl app. now rewrite lowerFrom_whiteSpace_first.
  - destruct (IH (before ++ [d])) as [front Hfront].
    simpl. rewrite Hfront. eexists. now rewrite app_assoc.
Qed.

(** A string whose lower-casing is the alias has no white space at either
    end: [trim] keeps it. *)
Lemma toLowerCase_alias_trim unicodeLower (u : js_string) :
  toLowerCase unicodeLower u = KUBERNETES_ALIAS -> trim u = u.
Proof.
  unfold toLowerCase. intros H.
  assert (Hstart : trimStart u = u).
  { destruct u as [|c rest]; [reflexivity|].
    destruct (isWhiteSpace c) eqn:Hc; [|simpl; now rewrite Hc].
    rewrite lowerFrom_whiteSpace_first in H by exact Hc.
    injection H as -> _. discriminate. }
  unfold trim, trimEnd. rewrite Hstart.
  destruct u as [|l front _] using rev_ind; [reflexivity|].
  rewrite reverse_snoc.
  destruct (isWhiteSpace l) eqn:Hl.
  - destruct (lowerFrom_whiteSpace_last unicodeLower l front [] Hl) as [x Hx].
    rewrite Hx in H. apply (f_equal last) in H. rewrite last_snoc in H.
    injection H as ->. discriminate.
  - simpl. rewrite Hl. now rewrite reverse_cons, reverse_involutive.
Qed.

(** A string equal to the alias up to the case of its ASCII letters
    consists of ASCII letters only, so it is equal to the alias up to
    case. *)
Lemma asciiEqualsIgnoreCase_alias unicodeLower (u : js_string) :
  asciiEqualsIgnoreCase u KUBERNETES_ALIAS = true ->
  equalsIgnoreCase unicodeLower u KUBERNETES_ALIAS = true.
Proof.
  intros H. apply strictEq_true in H.
  assert (Hl : asciiLower <$> u = KUBERNETES_ALIAS) by (rewrite H; reflexivity).
  assert (Ha : Forall (fun c => c < 128) (asciiLower <$> u)).
  { rewrite Hl. apply (bool_decide_unpack _). vm_compute. exact I. }
  apply Forall_fmap in Ha.
  apply strictEq_true. rewrite toLowerCase_ascii.
  - now rewrite Hl.
  - eapply Forall_impl; [exact Ha|]. intros c Hc. now apply asciiLower_bound.
Qed.

(** ** schemaUrls.ts *)

Section CheckSchemaURI_properties.
Variable unicodeLower : js_string -> N -> js_string -> js_string.
Variables Folder Root : Type.
Variable isRelative : js_string -> bool.
Variable toAbsolute : list Folder -> Root -> js_string -> js_string.

Lemma isKubernetesAlias_true (u : js_string) :
  isKubernetesAlias unicodeLower u = true <->
  toLowerCase unicodeLower (trim u) = KUBERNETES_ALIAS.
Proof. apply strictEq_true. Qed.

Lemma equalsIgnoreCase_isKubernetesAlias (u : js_string) :
  equalsIgnoreCase unicodeLower u KUBERNETES_ALIAS = true ->
  isKubernetesAlias unicodeLower u = true.
Proof.
  intros H. apply strictEq_true in H.
  assert (Hl : toLowerCase unicodeLower u = KUBERNETES_ALIAS)
    by (rewrite H; reflexivity).
  apply isKubernetesAlias_true.
  now rewrite (toLowerCase_alias_trim unicodeLower u Hl).
Qed.

(** C1: an identifier that is equal to the alias token [kubernetes] when
    case is ignored resolves to the fixed Kubernetes schema URL, whatever
    the workspace folders and the workspace root are. *)
Theorem checkSchemaURI_kubernetes_alias
    (workspaceFolders : list Folder) (workspaceRoot : Root) (u : js_string) :
  equalsIgnoreCase unicodeLower u KUBERNETES_ALIAS = true ->
  checkSchemaURI unicodeLower isRelative toAbsolute
    workspaceFolders workspaceRoot u = KUBERNETES_SCHEMA_URL.
Proof.
  intros H. unfold checkSchemaURI.
  now rewrite (equalsIgnoreCase_isKubernetesAlias u H).
Qed.

(** C6: an identifier that is neither the alias (after trimming and
    lower-casing) nor a relative path is returned unchanged, whatever the
    workspace folders and the workspace root are. *)
Theorem checkSchemaURI_passes_through
    (workspaceFolders : list Folder) (workspaceRoot : Root) (u : js_string) :
  isKubernetesAlias unicodeLower u = false ->
  isRelative u = false ->
  checkSchemaURI unicodeLower isRelative toAbsolute
    workspaceFolders workspaceRoot u = u.
Proof. intros Ha Hr. unfold checkSchemaURI. now rewrite Ha, Hr. Qed.

(** C10: every identifier that is [kubernetes] after trimming the
    surrounding white space and lower-casing resolves to the Kubernetes
    schema URL; these identifiers include all those equal to the alias up
    to letter case, and more: [  Kubernetes  ] is one of them and is not
    equal to the alias up to letter case. *)
Theorem checkSchemaURI_alias_ignores_white_space :
  (forall workspaceFolders workspaceRoot u,
      toLowerCase unicodeLower (trim u) = KUBERNETES_ALIAS ->
      checkSchemaURI unicodeLower isRelative toAbsolute
        workspaceFolders workspaceRoot u = KUBERNETES_SCHEMA_URL)
  /\ (forall u,
         equalsIgnoreCase unicodeLower u KUBERNETES_ALIAS = true ->
         toLowerCase unicodeLower (trim u) = KUBERNETES_ALIAS)
  /\ (toLowerCase unicodeLower (trim (utf16 "  Kubernetes  ")) = KUBERNETES_ALIAS
      /\ equalsIgnoreCase unicodeLower (utf16 "  Kubernetes  ") KUBERNETES_ALIAS
         = false
      /\ forall workspaceFolders workspaceRoot,
           checkSchemaURI unicodeLower isRelative toAbsolute
             workspaceFolders workspaceRoot (utf16 "  Kubernetes  ")
           = KUBERNETES_SCHEMA_URL).
Proof.
  assert (Hfirst : forall workspaceFolders workspaceRoot u,
             toLowerCase unicodeLower (trim u) = KUBERNETES_ALIAS ->
             checkSchemaURI unicodeLower isRelative toAbsolute
               workspaceFolders workspaceRoot u = KUBERNETES_SCHEMA_URL).
  { intros wf wr u H. apply isKubernetesAlias_true in H.
    unfold checkSchemaURI. now rewrite H. }
  assert (Hsample :
            toLowerCase unicodeLower (trim (utf16 "  Kubernetes  "))
            = KUBERNETES_ALIAS).
  { replace (trim (utf16 "  Kubernetes  ")) with (utf16 "Kubernetes")
      by (vm_compute; reflexivity).
    rewrite toLowerCase_ascii; [vm_compute; reflexivity|].
    apply (bool_decide_unpack _). vm_compute. exact I. }
  split; [exact Hfirst|]. split.
  - intros u H. apply isKubernetesAlias_true.
    now apply equalsIgnoreCase_isKubernetesAlias.
  - split; [exact Hsample|]. split; [|intros wf wr; now apply Hfirst].
    unfold equalsIgnoreCase.
    rewrite !toLowerCase_ascii;
      apply (bool_decide_unpack _); vm_compute; exact I.
Qed.
End CheckSchemaURI_properties.

(** ** Relative identifiers *)

Lemma schemeTail_app (s rest : js_string) :
  forallb isSchemeChar s = true -> schemeTail (s ++ 58 :: rest) = true.
Proof.
  induction s as [|c s IH]; simpl; [reflexivity|].
  intros H. apply andb_true_iff in H as [Hc Hs].
  destruct (c =? 58); [reflexivity|]. now rewrite Hc, IH.
Qed.

Lemma uriToString_absolute (u : URI) :
  validScheme (scheme u) = true -> isAbsoluteURI (uriToString u) = true.
Proof.
  unfold isAbsoluteURI, uriToString, validScheme, hasScheme.
  destruct (scheme u) as [|c s]; [discriminate|].
  intros H. apply andb_true_iff in H as [Hc Hs]. simpl. rewrite Hc. simpl.
  now apply schemeTail_app.
Qed.

Lemma uriToString_resolvePath (base : URI) (rel : js_string) :
  uriToString (resolvePath base rel) = uriToString base ++ utf16 "/" ++ rel.
Proof.
  unfold uriToString, resolvePath. cbn [scheme authority path].
  now rewrite <- !app_assoc.
Qed.

Section RelativeToAbsolutePath_properties.
Variable Folder : Type.
Variable resolveInFolder : Folder -> js_string -> option URI.

(** The folders are tried in order: the first one that takes the
    identifier decides. *)
Lemma resolveInFolders_first (before after : list Folder) (f : Folder)
    (rel : js_string) (r : URI) :
  Forall (fun g => resolveInFolder g rel = None) before ->
  resolveInFolder f rel = Some r ->
  resolveInFolders resolveInFolder (before ++ f :: after) rel = Some r.
Proof.
  induction 1 as [|g before Hg _ IH]; intros Hf; simpl.
  - now rewrite Hf.
  - rewrite Hg. now apply IH.
Qed.

Lemma resolveInFolders_none (folders : list Folder) (rel : js_string) :
  Forall (fun g => resolveInFolder g rel = None) folders <->
  resolveInFolders resolveInFolder folders rel = None.
Proof.
  induction folders as [|g folders IH]; simpl.
  - split; [reflexivity | constructor].
  - rewrite Forall_cons, IH.
    destruct (resolveInFolder g rel); split; try easy.
Qed.

Lemma resolveInFolders_some (folders : list Folder) (rel : js_string) (r : URI) :
  resolveInFolders resolveInFolder folders rel = Some r ->
  exists f, f ∈ folders /\ resolveInFolder f rel = Some r.
Proof.
  induction folders as [|g folders IH]; simpl; [discriminate|].
  destruct (resolveInFolder g rel) as [r'|] eqn:E.
  - intros [= <-]. exists g. split; [left | exact E].
  - intros H. destruct (IH H) as (f & Hin & Hf).
    exists f. split; [now right | exact Hf].
Qed.

(** C5: a relative identifier that is not the alias resolves to an
    absolute URI: the one given by the first workspace folder that takes
    the identifier, and the identifier below the workspace root when no
    folder does; with no workspace folder at all the result is the string
    of the root followed by a slash and the identifier. *)
Theorem checkSchemaURI_relative
    (unicodeLower : js_string -> N -> js_string -> js_string)
    (workspaceFolders : list Folder) (workspaceRoot : URI) (u : js_string) :
  isRelativePath u = true ->
  isKubernetesAlias unicodeLower u = false ->
  validScheme (scheme workspaceRoot) = true ->
  (forall f r, f ∈ workspaceFolders -> resolveInFolder f u = Some r ->
               validScheme (scheme r) = true) ->
  let result :=
    checkSchemaURI unicodeLower isRelativePath
      (relativeToAbsolutePath resolveInFolder)
      workspaceFolders workspaceRoot u in
  isAbsoluteURI result = true
  /\ (forall before f after r,
        workspaceFolders = before ++ f :: after ->
        Forall (fun g => resolveInFolder g u = None) before ->
        resolveInFolder f u = Some r ->
        result = uriToString r)
  /\ (Forall (fun g => resolveInFolder g u = None) workspaceFolders ->
      result = uriToString workspaceRoot ++ utf16 "/" ++ u)
  /\ (workspaceFolders = [] ->
      result = uriToString workspaceRoot ++ utf16 "/" ++ u).
Proof.
  intros Hrel Halias Hroot Hfolders result.
  assert (Hresult : result =
            relativeToAbsolutePath resolveInFolder
              workspaceFolders workspaceRoot u).
  { subst result. unfold checkSchemaURI. now rewrite Halias, Hrel. }
  assert (Hnone : Forall (fun g => resolveInFolder g u = None) workspaceFolders ->
                  result = uriToString workspaceRoot ++ utf16 "/" ++ u).
  { intros H. apply resolveInFolders_none in H.
    rewrite Hresult. unfold relativeToAbsolutePath. rewrite H.
    apply uriToString_resolvePath. }
  repeat split.
  - rewrite Hresult. unfold relativeToAbsolutePath.
    destruct (resolveInFolders resolveInFolder workspaceFolders u) as [r|] eqn:E.
    + apply resolveInFolders_some in E as (f & Hin & Hf).
      apply uriToString_absolute. now apply (Hfolders f r).
    + now apply uriToString_absolute.
  - intros before f after r -> Hbefore Hf.
    rewrite Hresult. unfold relativeToAbsolutePath.
    now rewrite (resolveInFolders_first before after f u r Hbefore Hf).
  - exact Hnone.
  - intros ->. apply Hnone. constructor.
Qed.
End RelativeToAbsolutePath_properties.

Lemma checkSchemaURI_kubernetes_alias_witness :
  equalsIgnoreCase sampleUnicodeLower (utf16 "KuBeRnEtEs") KUBERNETES_ALIAS = true
  /\ sampleCheckSchemaURI sampleFolders sampleRoot (utf16 "KuBeRnEtEs")
     = KUBERNETES_SCHEMA_URL.
Proof.
  split; [vm_compute; reflexivity|].
  apply checkSchemaURI_kubernetes_alias. vm_compute; reflexivity.
Defined.

Lemma checkSchemaURI_passes_through_witness :
  isKubernetesAlias sampleUnicodeLower (utf16 "https://example.com/s.json") = false
  /\ isRelativePath (utf16 "https://example.com/s.json") = false
  /\ sampleCheckSchemaURI sampleFolders sampleRoot (utf16 "https://example.com/s.json")
     = utf16 "https://example.com/s.json".
Proof.
  split; [vm_compute; reflexivity|]. split; [vm_compute; reflexivity|].
  apply checkSchemaURI_passes_through; vm_compute; reflexivity.
Defined.

Lemma checkSchemaURI_alias_ignores_white_space_witness :
  toLowerCase sampleUnicodeLower (trim (utf16 " KUBERNETES ")) = KUBERNETES_ALIAS
  /\ sampleCheckSchemaURI sampleFolders sampleRoot (utf16 " KUBERNETES ")
     = KUBERNETES_SCHEMA_URL.
Proof.
  split; [vm_compute; reflexivity|].
  apply (proj1 (checkSchemaURI_alias_ignores_white_space sampleUnicodeLower
                  SampleFolder URI isRelativePath
                  (relativeToAbsolutePath sampleResolveInFolder))).
  vm_compute; reflexivity.
Defined.

Lemma checkSchemaURI_relative_witness :
  isRelativePath (utf16 "schemas/k8s.json") = true
  /\ isKubernetesAlias sampleUnicodeLower (utf16 "schemas/k8s.json") = false
  /\ sampleCheckSchemaURI [] sampleRoot (utf16 "schemas/k8s.json")
     = utf16 "file:///home/user/project/schemas/k8s.json"
  /\ sampleCheckSchemaURI sampleFolders sampleRoot (utf16 "schemas/k8s.json")
     = utf16 "file:///home/user/other/schemas/k8s.json".
Proof.
  split; [vm_compute; reflexivity|]. split; [vm_compute; reflexivity|].
  split.
  - refine (proj2 (proj2 (proj2
      (checkSchemaURI_relative SampleFolder sampleResolveInFolder
         sampleUnicodeLower [] sampleRoot (utf16 "schemas/k8s.json")
         _ _ _ _))) eq_refl);
      try (vm_compute; reflexivity).
    intros f r Hin. inversion Hin.
  - vm_compute; reflexivity.
Defined.

(** ** The handlers *)

Section World_lemmas.
Context {S Symbol Modification : Type}.
Implicit Types w : World S Symbol Modification.

Lemma addCalls_nil w : addCalls [] w = w.
Proof. destruct w. unfold addCalls. simpl. now rewrite app_nil_r. Qed.

Lemma addCalls_addCalls (a b : list (Call Modification)) w :
  addCalls b (addCalls a w) = addCalls (a ++ b) w.
Proof. unfold addCalls. simpl. now rewrite app_assoc. Qed.

Lemma addCalls_setService (cs : list (Call Modification)) (s : S) w :
  addCalls cs (setService s w) = setService s (addCalls cs w).
Proof. reflexivity. Qed.
End World_lemmas.

Section LanguageHandlers_properties.
Context {S Symbol CompletionItem Modification : Type}.
Implicit Types w : World S Symbol Modification.

Variable resetSchema : js_string -> S -> bool * S.

Lemma forEach_validate (ds : list TextDocument) w :
  forEach S Symbol Modification (validationHandler_validate S Symbol Modification) ds w
  = (tt, addCalls (Call_validate <$> ds) w).
Proof.
  revert w. induction ds as [|d ds IH]; intros w; simpl.
  - now rewrite addCalls_nil.
  - unfold mbind, M_bind, validationHandler_validate, record. simpl.
    rewrite IH. now rewrite addCalls_addCalls.
Qed.

Lemma languageService_resetSchema_run (u : js_string) w :
  languageService_resetSchema S Symbol Modification resetSchema u w
  = ((resetSchema u (languageService w)).1,
     setService (resetSchema u (languageService w)).2
       (addCalls [Call_resetSchema u] w)).
Proof.
  unfold languageService_resetSchema, record, onService, mbind, M_bind.
  simpl. now destruct (resetSchema u (languageService w)).
Qed.

Lemma resetChanged_run (cs : list FileEvent) (hasChanges : bool) w :
  resetChanged resetSchema cs hasChanges w
  = (hasChanges
     || existsb id (resetSchemaAnswers resetSchema (fe_uri <$> cs)
                      (languageService w)).1,
     setService
       (resetSchemaAnswers resetSchema (fe_uri <$> cs) (languageService w)).2
       (addCalls (Call_resetSchema <$> (fe_uri <$> cs)) w)).
Proof.
  revert hasChanges w. induction cs as [|c cs IH]; intros h w.
  - simpl. unfold mret, M_ret. rewrite orb_false_r, addCalls_nil.
    now destruct w.
  - rewrite !fmap_cons. cbn [resetChanged resetSchemaAnswers].
    unfold mbind, M_bind. rewrite languageService_resetSchema_run.
    destruct (resetSchema (fe_uri c) (languageService w)) as [r s1].
    rewrite IH. cbn [fst snd languageService setService addCalls].
    destruct (resetSchemaAnswers resetSchema (fe_uri <$> cs) s1) as [rs s2].
    cbn [fst snd existsb id]. f_equal.
    + now destruct r, h.
    + unfold setService, addCalls. simpl. now rewrite <- app_assoc.
Qed.

(** C2: [watchedFilesHandler] asks [resetSchema] about every changed URI,
    in order; it then calls [validate] on every open document, in order,
    when at least one of the answers was [true], and on no document when
    all the answers were [false].  It makes no other call. *)
Theorem watchedFilesHandler_validates_iff_reset
    (change : DidChangeWatchedFilesParams) w :
  let us := fe_uri <$> changes change in
  let answers := fst (resetSchemaAnswers resetSchema us (languageService w)) in
  let w' := snd (watchedFilesHandler resetSchema change w) in
  calls w' =
    calls w ++ (Call_resetSchema <$> us)
            ++ (if existsb id answers
                then Call_validate <$> TextDocuments_all (documents (yamlSettings w))
                else [])
  /\ languageService w' =
       snd (resetSchemaAnswers resetSchema us (languageService w)).
Proof.
  intros us answers w'. subst w'. unfold watchedFilesHandler.
  unfold mbind, M_bind. rewrite resetChanged_run. simpl.
  fold us. fold answers.
  destruct (existsb id answers).
  - unfold documents_all, gets. rewrite forEach_validate. simpl.
    split; [|reflexivity]. now rewrite <- app_assoc.
  - simpl. split; [|reflexivity]. now rewrite app_nil_r.
Qed.
End LanguageHandlers_properties.

Section RequestHandlers_properties.
Context {S Symbol Modification Action : Type} `{EqDecision Action}.
Implicit Types w : World S Symbol Modification.

Variable action : Modification -> Action.
Variables ADD DELETE DELETE_ALL : Action.
Variables modifySchemaContent deleteSchemaContent deleteSchemasWhole :
  Modification -> S -> S.

Local Abbreviation handler :=
  (registerSchemaModificationNotificationHandler (Symbol := Symbol)
     action ADD DELETE DELETE_ALL
     modifySchemaContent deleteSchemaContent deleteSchemasWhole).

Lemma handler_add (m : Modification) w :
  action m = ADD ->
  handler m w
  = (tt, setService (modifySchemaContent m (languageService w))
           (addCalls [Call_modifySchemaContent m] w)).
Proof.
  intros Ha. unfold registerSchemaModificationNotificationHandler.
  now rewrite decide_True by exact Ha.
Qed.

Lemma handler_delete (m : Modification) w :
  action m <> ADD -> action m = DELETE ->
  handler m w
  = (tt, setService (deleteSchemaContent m (languageService w))
           (addCalls [Call_deleteSchemaContent m] w)).
Proof.
  intros Hn Ha. unfold registerSchemaModificationNotificationHandler.
  rewrite decide_False by exact Hn. now rewrite decide_True by exact Ha.
Qed.

Lemma handler_deleteAll (m : Modification) w :
  action m <> ADD -> action m <> DELETE -> action m = DELETE_ALL ->
  handler m w
  = (tt, setService (deleteSchemasWhole m (languageService w))
           (addCalls [Call_deleteSchemasWhole m] w)).
Proof.
  intros Hn Hd Ha. unfold registerSchemaModificationNotificationHandler.
  rewrite decide_False by exact Hn. rewrite decide_False by exact Hd.
  now rewrite decide_True by exact Ha.
Qed.

(** C3: the members of [MODIFICATION_ACTIONS] being distinct, the handler
    makes exactly one call for a request tagged with one of them: an [add]
    request goes to [modifySchemaContent], a [delete] request to
    [deleteSchemaContent], a [deleteAll] request to [deleteSchemasWhole],
    each with the request itself as the argument. *)
Theorem schemaModification_dispatch (m : Modification) w :
  NoDup [ADD; DELETE; DELETE_ALL] ->
  let w' :=
    snd (registerSchemaModificationNotificationHandler action
           ADD DELETE DELETE_ALL
           modifySchemaContent deleteSchemaContent deleteSchemasWhole m w) in
  (action m = ADD ->
     calls w' = calls w ++ [Call_modifySchemaContent m]
     /\ languageService w' = modifySchemaContent m (languageService w))
  /\ (action m = DELETE ->
        calls w' = calls w ++ [Call_deleteSchemaContent m]
        /\ languageService w' = deleteSchemaContent m (languageService w))
  /\ (action m = DELETE_ALL ->
        calls w' = calls w ++ [Call_deleteSchemasWhole m]
        /\ languageService w' = deleteSchemasWhole m (languageService w)).
Proof.
  intros Hnd w'. subst w'.
  apply NoDup_cons in Hnd as [Hadd Hnd].
  apply NoDup_cons in Hnd as [Hdel _].
  rewrite !elem_of_cons in Hadd. rewrite elem_of_cons in Hdel.
  repeat split.
  - rewrite handler_add by assumption. reflexivity.
  - rewrite handler_add by assumption. reflexivity.
  - rewrite handler_delete; [reflexivity | | assumption]. intros E. apply Hadd.
    left. congruence.
  - rewrite handler_delete; [reflexivity | | assumption]. intros E. apply Hadd.
    left. congruence.
  - rewrite handler_deleteAll; [reflexivity | | | assumption].
    + intros E. apply Hadd. right. left. congruence.
    + intros E. apply Hdel. left. congruence.
  - rewrite handler_deleteAll; [reflexivity | | | assumption].
    + intros E. apply Hadd. right. left. congruence.
    + intros E. apply Hdel. left. congruence.
Qed.

(** C8: for a request whose tag is none of [add], [delete] and
    [deleteAll], the handler returns normally and leaves everything as it
    was: no call is made and the state of the language service is the
    same. *)
Theorem schemaModification_unknown_action (m : Modification) w :
  action m <> ADD -> action m <> DELETE -> action m <> DELETE_ALL ->
  registerSchemaModificationNotificationHandler action
    ADD DELETE DELETE_ALL
    modifySchemaContent deleteSchemaContent deleteSchemasWhole m w
  = (tt, w).
Proof.
  intros Ha Hd Hall. unfold registerSchemaModificationNotificationHandler.
  now rewrite !decide_False by assumption.
Qed.
End RequestHandlers_properties.

Section Completion_properties.
Context {S Symbol CompletionItem Modification : Type}.
Implicit Types w : World S Symbol Modification.

Variable doComplete :
  TextDocument -> Position -> bool -> S -> CompletionList CompletionItem * S.
Variable isKubernetesAssociatedDocument :
  TextDocument -> list js_string -> bool.

(** C9: for a document URI that is not among the open documents,
    [completionHandler] resolves to the list with no items and
    [isIncomplete] false, and the world is left as it was: in particular
    [doComplete] is not called. *)
Theorem completionHandler_unknown_document
    (textDocumentPosition : TextDocumentPositionParams) w :
  TextDocuments_get (documents (yamlSettings w))
    (uri (textDocument textDocumentPosition)) = None ->
  completionHandler doComplete isKubernetesAssociatedDocument
    textDocumentPosition w
  = ({| items := []; isIncomplete := false |}, w).
Proof.
  intros Hget. unfold completionHandler, documents_get, gets, mbind, M_bind.
  now rewrite Hget.
Qed.

(** For an open document the request goes to [doComplete]. *)
Lemma completionHandler_open_document
    (textDocumentPosition : TextDocumentPositionParams) (d : TextDocument) w :
  TextDocuments_get (documents (yamlSettings w))
    (uri (textDocument textDocumentPosition)) = Some d ->
  calls (completionHandler doComplete isKubernetesAssociatedDocument
           textDocumentPosition w).2
  = calls w ++ [Call_doComplete d (position textDocumentPosition)
                  (isKubernetesAssociatedDocument d
                     (specificValidatorPaths (yamlSettings w)))].
Proof.
  intros Hget. unfold completionHandler, documents_get, gets, mbind, M_bind.
  rewrite Hget. unfold languageService_doComplete, record, onService, mbind, M_bind.
  simpl. now destruct doComplete.
Qed.
End Completion_properties.

Section DocumentSymbol_properties.
Context {S Symbol Modification : Type}.
Implicit Types w : World S Symbol Modification.

Variables findDocumentSymbols findDocumentSymbols2 :
  TextDocument -> S -> list Symbol * S.

(** The symbol provider the handler selects. *)
Local Abbreviation core w :=
  (if hierarchicalDocumentSymbolSupport (yamlSettings w)
   then findDocumentSymbols2 else findDocumentSymbols).

(** When the guard of the early return fails, only the clock may have
    been read. *)
Lemma cachedDocumentSymbols_None (u : js_string) w w1 :
  cachedDocumentSymbols u w = (None, w1) -> w1 = w \/ w1 = tick w.
Proof.
  unfold cachedDocumentSymbols, gets, getTime, mbind, M_bind, mret, M_ret.
  destruct (isTest w); [intros [= <-]; now left|].
  destruct (pc_request (previousCall w)); [|intros [= <-]; now left].
  destruct (pc_time (previousCall w)) as [time|]; [|intros [= <-]; now left].
  destruct (time =? 0)%Z; [intros [= <-]; now left|].
  destruct (bool_decide (pc_uri (previousCall w) = Some u)); simpl;
    [|intros [= <-]; now left].
  destruct (clock w (ticks w) - time <? 100)%Z; [discriminate|].
  intros [= <-]. now right.
Qed.

(** Past the guard, the handler returns what the symbol provider computes
    for the open document. *)
Lemma documentSymbolHandler_fresh
    (p : DocumentSymbolParams) (d : TextDocument) w w1 :
  TextDocuments_get (documents (yamlSettings w)) (uri (dsp_textDocument p))
    = Some d ->
  cachedDocumentSymbols (uri (dsp_textDocument p)) w = (None, w1) ->
  (documentSymbolHandler findDocumentSymbols findDocumentSymbols2 p w).1
  = Some (core w d (languageService w)).1.
Proof.
  intros Hget Hcached.
  unfold documentSymbolHandler, documents_get, gets, mbind, M_bind.
  rewrite Hget, Hcached.
  assert (Hs : languageService w1 = languageService w
               /\ yamlSettings w1 = yamlSettings w).
  { destruct (cachedDocumentSymbols_None _ _ _ Hcached) as [-> | ->];
      now split. }
  destruct Hs as [Hs Hy]. rewrite Hy.
  destruct (hierarchicalDocumentSymbolSupport (yamlSettings w));
    unfold languageService_findDocumentSymbols2,
      languageService_findDocumentSymbols,
      record, onService, getTime, setPreviousCall, mbind, M_bind, mret, M_ret;
    simpl; rewrite Hs.
  - now destruct (findDocumentSymbols2 d (languageService w)).
  - now destruct (findDocumentSymbols d (languageService w)).
Qed.

(** C4, as the code has it: for an open document, a request made outside
    test mode for the URI of the stored previous call, less than 100 ms
    after its non-zero time stamp, is answered with the stored list and
    without calling the symbol provider; every other request is answered
    with the list the symbol provider computes for the document as it is
    now. *)
Theorem documentSymbolHandler_result
    (p : DocumentSymbolParams) (d : TextDocument) w :
  TextDocuments_get (documents (yamlSettings w)) (uri (dsp_textDocument p))
    = Some d ->
  (forall request time,
      isTest w = false ->
      pc_request (previousCall w) = Some request ->
      pc_time (previousCall w) = Some time ->
      time <> 0%Z ->
      pc_uri (previousCall w) = Some (uri (dsp_textDocument p)) ->
      (clock w (ticks w) - time < 100)%Z ->
      documentSymbolHandler findDocumentSymbols findDocumentSymbols2 p w
      = (Some request, tick w))
  /\ (isTest w = true
      \/ pc_request (previousCall w) = None
      \/ pc_time (previousCall w) = None
      \/ pc_time (previousCall w) = Some 0%Z
      \/ pc_uri (previousCall w) <> Some (uri (dsp_textDocument p))
      \/ (exists time, pc_time (previousCall w) = Some time
                       /\ (100 <= clock w (ticks w) - time)%Z) ->
      (documentSymbolHandler findDocumentSymbols findDocumentSymbols2 p w).1
      = Some (core w d (languageService w)).1).
Proof.
  intros Hget. split.
  - intros request time Htest Hreq Htime Hnz Huri Hwin.
    unfold documentSymbolHandler, documents_get, gets, mbind, M_bind.
    rewrite Hget.
    unfold cachedDocumentSymbols, gets, getTime, mbind, M_bind, mret, M_ret.
    rewrite Htest, Hreq, Htime.
    destruct (Z.eqb_spec time 0); [contradiction|].
    rewrite bool_decide_eq_true_2 by exact Huri. simpl.
    destruct (Z.ltb_spec (clock w (ticks w) - time) 100); [reflexivity | lia].
  - intros Hby.
    assert (Hnone : exists w1,
               cachedDocumentSymbols (uri (dsp_textDocument p)) w = (None, w1)).
    { unfold cachedDocumentSymbols, gets, getTime, mbind, M_bind, mret, M_ret.
      destruct (isTest w); [now eexists|].
      destruct (pc_request (previousCall w)); [|now eexists].
      destruct (pc_time (previousCall w)) as [time|]; [|now eexists].
      destruct (Z.eqb_spec time 0); [now eexists|].
      destruct (decide (pc_uri (previousCall w) = Some (uri (dsp_textDocument p))))
        as [Hu|Hu].
      2:{ rewrite bool_decide_eq_false_2 by exact Hu. now eexists. }
      rewrite bool_decide_eq_true_2 by exact Hu. simpl.
      destruct (Z.ltb_spec (clock w (ticks w) - time) 100); [|now eexists].
      exfalso.
      destruct Hby as [Hb|[Hb|[Hb|[Hb|[Hb|(t & Hb1 & Hb2)]]]]];
        try discriminate; try contradiction.
      + injection Hb as ->. contradiction.
      + injection Hb1 as ->. lia. }
    destruct Hnone as [w1 Hw1].
    now apply (documentSymbolHandler_fresh p d w w1).
Qed.
End DocumentSymbol_properties.

(** C4, as stated, fails: after a request for a document, an edit of that
    document and a second request 10 ms later, the handler still answers
    with the symbols of the first revision, not with those the symbol
    provider computes for the current one. *)
Lemma documentSymbolHandler_stale_counterexample :
  TextDocuments_get (documents (yamlSettings sampleWorldAfterEdit))
    (uri (dsp_textDocument sampleSymbolParams)) = Some sampleDocumentA2
  /\ (sampleDocumentSymbolHandler sampleSymbolParams sampleWorldAfterEdit).1
     = Some [utf16 "kind: Pod"]
  /\ (sampleFindDocumentSymbols sampleDocumentA2
        (languageService sampleWorldAfterEdit)).1
     = [utf16 "spec: {}"]
  /\ (sampleDocumentSymbolHandler sampleSymbolParams sampleWorldAfterEdit).1
     <> Some (sampleFindDocumentSymbols sampleDocumentA2
               (languageService sampleWorldAfterEdit)).1.
Proof.
  split; [vm_compute; reflexivity|].
  split; [vm_compute; reflexivity|].
  split; [vm_compute; reflexivity|].
  vm_compute. discriminate.
Qed.

(** ** The schema store *)

Section SchemaStore_properties.
Context {Fragment Symbol : Type}.
Implicit Types st : SchemaStore Fragment.
Implicit Types w : World (SchemaStore Fragment) Symbol (SchemaModification Fragment).

Lemma applyOverlay_empty (base : SchemaDocument Fragment) :
  applyOverlay base ∅ = base.
Proof.
  apply map_eq. intros i. unfold applyOverlay.
  rewrite lookup_merge, lookup_empty. now destruct (base !! i).
Qed.

Lemma applyOverlay_added (base : SchemaDocument Fragment)
    (ov : Overlay Fragment) (i : js_string * js_string) (f : Fragment) :
  applyOverlay base (<[i := Some f]> ov) !! i = Some f.
Proof.
  unfold applyOverlay. rewrite lookup_merge, lookup_insert_eq.
  now destruct (base !! i).
Qed.

Lemma storedSchema_deleteSchemasWhole st (u : js_string) :
  storedSchema (store_deleteSchemasWhole (SchemaDeletionsAll u) st) u
  = fetchedSchema st u.
Proof.
  unfold storedSchema, overlayOf, fetchedSchema. simpl.
  rewrite lookup_delete_eq. simpl. apply applyOverlay_empty.
Qed.

Lemma storedSchema_modifySchemaContent st (u p k : js_string) (f : Fragment) :
  storedSchema (store_modifySchemaContent (SchemaAdditions u p k f) st) u
    !! (p, k) = Some f.
Proof.
  unfold storedSchema, overlayOf at 1. simpl.
  rewrite lookup_insert_eq. simpl. apply applyOverlay_added.
Qed.

(** C7: an [add] request for a schema URI followed by a [deleteAll]
    request for the same URI leaves the store holding, for that URI,
    exactly the schema that was fetched (the empty one when none was);
    the fetched schemas are the same before, between and after the two
    requests, while between them the added fragment is in the stored
    schema. *)
Theorem add_then_deleteAll_restores_fetched
    w (u p k : js_string) (content : Fragment) :
  let handler :=
    registerSchemaModificationNotificationHandler (Symbol := Symbol)
      sm_action MA_add MA_delete MA_deleteAll
      store_modifySchemaContent store_deleteSchemaContent
      store_deleteSchemasWhole in
  let w1 := (handler (SchemaAdditions u p k content) w).2 in
  let w2 := (handler (SchemaDeletionsAll u) w1).2 in
  storedSchema (languageService w2) u = fetchedSchema (languageService w) u
  /\ fetched (languageService w2) = fetched (languageService w)
  /\ fetched (languageService w1) = fetched (languageService w)
  /\ storedSchema (languageService w1) u !! (p, k) = Some content
  /\ calls w2 = calls w ++ [Call_modifySchemaContent (SchemaAdditions u p k content);
                            Call_deleteSchemasWhole (SchemaDeletionsAll u)].
Proof.
  intros handler w1 w2.
  assert (H1 : languageService w1
               = store_modifySchemaContent (SchemaAdditions u p k content)
                   (languageService w)) by reflexivity.
  assert (H2 : languageService w2
               = store_deleteSchemasWhole (SchemaDeletionsAll u)
                   (languageService w1)) by reflexivity.
  split; [|split; [|split; [|split]]].
  - rewrite H2, storedSchema_deleteSchemasWhole, H1. reflexivity.
  - rewrite H2, H1. reflexivity.
  - rewrite H1. reflexivity.
  - rewrite H1. apply storedSchema_modifySchemaContent.
  - subst w2 w1 handler. simpl. now rewrite <- app_assoc.
Qed.
End SchemaStore_properties.

(** ** Runs on the sample data *)

Example watchedFilesHandler_cached_schema_changed :
  calls (sampleWatchedFilesHandler
           {| changes := [ {| fe_uri := utf16 "file:///s/none.json"; fe_type := 2 |};
                           {| fe_uri := utf16 "file:///s/a.json"; fe_type := 2 |} ] |}
           sampleWorld).2
  = [ Call_resetSchema (utf16 "file:///s/none.json");
      Call_resetSchema (utf16 "file:///s/a.json");
      Call_validate sampleDocumentA; Call_validate sampleDocumentB ].
Proof. vm_compute. reflexivity. Qed.

Example watchedFilesHandler_no_cached_schema_changed :
  calls (sampleWatchedFilesHandler
           {| changes := [ {| fe_uri := utf16 "file:///s/none.json"; fe_type := 2 |} ] |}
           sampleWorld).2
  = [ Call_resetSchema (utf16 "file:///s/none.json") ].
Proof. vm_compute. reflexivity. Qed.

Example trim_example :
  trim (utf16 "  Kubernetes  ") = utf16 "Kubernetes".
Proof. vm_compute. reflexivity. Qed.

Example toLowerCase_kelvin_sign :
  toLowerCase sampleUnicodeLower (8490 :: utf16 "UBErnetes") = KUBERNETES_ALIAS.
Proof. vm_compute. reflexivity. Qed.

Lemma schemaModification_dispatch_witness :
  NoDup [1; 0; 2]
  /\ fst sampleAddition = 1
  /\ calls (sampleRequestHandler sampleAddition sampleWorld).2
     = calls sampleWorld ++ [Call_modifySchemaContent sampleAddition].
Proof.
  assert (Hnd : NoDup [1; 0; 2]) by (apply (bool_decide_unpack _); exact I).
  split; [exact Hnd|]. split; [reflexivity|].
  exact (proj1 (proj1 (schemaModification_dispatch
                         (fst : SampleRequest -> N) 1 0 2
                         (fun m => store_modifySchemaContent m.2)
                         (fun m => store_deleteSchemaContent m.2)
                         (fun m => store_deleteSchemasWhole m.2)
                         sampleAddition sampleWorld Hnd) eq_refl)).
Defined.

Lemma schemaModification_unknown_action_witness :
  fst sampleUnknownRequest <> 1
  /\ fst sampleUnknownRequest <> 0
  /\ fst sampleUnknownRequest <> 2
  /\ sampleRequestHandler sampleUnknownRequest sampleWorld = (tt, sampleWorld).
Proof.
  split; [discriminate|]. split; [discriminate|]. split; [discriminate|].
  apply schemaModification_unknown_action; discriminate.
Defined.

Lemma completionHandler_unknown_document_witness :
  TextDocuments_get (documents (yamlSettings sampleWorld))
    (utf16 "file:///w/closed.yaml") = None
  /\ sampleCompletionHandler
       {| textDocument := {| uri := utf16 "file:///w/closed.yaml" |};
          position := {| line := 0; character := 0 |} |}
       sampleWorld
     = ({| items := []; isIncomplete := false |}, sampleWorld).
Proof.
  split; [vm_compute; reflexivity|].
  apply completionHandler_unknown_document. vm_compute; reflexivity.
Defined.

Lemma documentSymbolHandler_result_witness :
  sampleDocumentSymbolHandler sampleSymbolParams sampleWorldAfterEdit
  = (Some [utf16 "kind: Pod"], tick sampleWorldAfterEdit)
  /\ (sampleDocumentSymbolHandler sampleSymbolParams sampleWorld).1
     = Some [utf16 "kind: Pod"].
Proof.
  split.
  - refine (proj1 (documentSymbolHandler_result
                     sampleFindDocumentSymbols sampleFindDocumentSymbols
                     sampleSymbolParams sampleDocumentA2 sampleWorldAfterEdit _)
              [utf16 "kind: Pod"] 1000%Z _ _ _ _ _ _);
      try (vm_compute; reflexivity).
    discriminate.
  - refine (proj2 (documentSymbolHandler_result
                     sampleFindDocumentSymbols sampleFindDocumentSymbols
                     sampleSymbolParams sampleDocumentA sampleWorld _) _).
    + vm_compute; reflexivity.
    + right. left. reflexivity.
Defined.

(** * Further properties *)

(** ** White space around an identifier *)

Lemma trimStart_whiteSpace_app (ws s : js_string) :
  Forall (fun c => isWhiteSpace c = true) ws ->
  trimStart (ws ++ s) = trimStart s.
Proof. induction 1 as [|c ws Hc _ IH]; simpl; [reflexivity | now rewrite Hc]. Qed.

Lemma trimStart_whiteSpace (ws : js_string) :
  Forall (fun c => isWhiteSpace c = true) ws -> trimStart ws = [].
Proof.
  intros H. rewrite <- (app_nil_r ws). now rewrite trimStart_whiteSpace_app.
Qed.

Lemma trimEnd_app_whiteSpace (s ws : js_string) :
  Forall (fun c => isWhiteSpace c = true) ws ->
  trimEnd (s ++ ws) = trimEnd s.
Proof.
  intros H. unfold trimEnd. rewrite reverse_app.
  rewrite trimStart_whiteSpace_app; [reflexivity | now apply Forall_reverse].
Qed.

Lemma trim_app_whiteSpace (s ws : js_string) :
  Forall (fun c => isWhiteSpace c = true) ws ->
  trim (s ++ ws) = trim s.
Proof.
  intros H. unfold trim. induction s as [|c s IH]; simpl.
  - now rewrite trimStart_whiteSpace.
  - destruct (isWhiteSpace c); [exact IH|].
    now rewrite app_comm_cons, trimEnd_app_whiteSpace.
Qed.

Lemma trim_padding (before after s : js_string) :
  Forall (fun c => isWhiteSpace c = true) before ->
  Forall (fun c => isWhiteSpace c = true) after ->
  trim (before ++ s ++ after) = trim s.
Proof.
  intros Hb Ha. rewrite <- (trim_app_whiteSpace s after Ha).
  unfold trim. now rewrite trimStart_whiteSpace_app.
Qed.

Section Padding_properties.
Variable unicodeLower : js_string -> N -> js_string -> js_string.
Variables Folder Root : Type.
Variable isRelative : js_string -> bool.
Variable toAbsolute : list Folder -> Root -> js_string -> js_string.

(** X1: white space put before and after an identifier never changes
    whether [checkSchemaURI] takes it for the alias; an identifier equal to
    the alias when case is ignored therefore still resolves to the
    Kubernetes schema URL under any such padding. *)
Theorem checkSchemaURI_alias_padding
    (workspaceFolders : list Folder) (workspaceRoot : Root)
    (before after u : js_string) :
  Forall (fun c => isWhiteSpace c = true) before ->
  Forall (fun c => isWhiteSpace c = true) after ->
  isKubernetesAlias unicodeLower (before ++ u ++ after)
  = isKubernetesAlias unicodeLower u
  /\ (equalsIgnoreCase unicodeLower u KUBERNETES_ALIAS = true ->
      checkSchemaURI unicodeLower isRelative toAbsolute
        workspaceFolders workspaceRoot (before ++ u ++ after)
      = KUBERNETES_SCHEMA_URL).
Proof.
  intros Hb Ha.
  assert (Hsame : isKubernetesAlias unicodeLower (before ++ u ++ after)
                  = isKubernetesAlias unicodeLower u).
  { unfold isKubernetesAlias. now rewrite trim_padding. }
  split; [exact Hsame|].
  intros Hu. unfold checkSchemaURI.
  now rewrite Hsame, (equalsIgnoreCase_isKubernetesAlias unicodeLower u Hu).
Qed.
End Padding_properties.

(** ** More on [documentSymbolHandler] *)

Section DocumentSymbol_calls.
Context {S Symbol Modification : Type}.
Implicit Types w : World S Symbol Modification.

Variables findDocumentSymbols findDocumentSymbols2 :
  TextDocument -> S -> list Symbol * S.

Local Abbreviation handler :=
  (documentSymbolHandler (Modification := Modification)
     findDocumentSymbols findDocumentSymbols2).

(** The method of the language service selected by the settings, and the
    entry of the call log it leaves. *)
Local Abbreviation provider w :=
  (if hierarchicalDocumentSymbolSupport (yamlSettings w)
   then findDocumentSymbols2 else findDocumentSymbols).
Local Abbreviation providerCall w d :=
  (if hierarchicalDocumentSymbolSupport (yamlSettings w)
   then Call_findDocumentSymbols2 (Modification := Modification) d
   else Call_findDocumentSymbols d).

(** The early return. *)
Lemma documentSymbolHandler_hit
    (p : DocumentSymbolParams) (d : TextDocument) w
    (request : list Symbol) (time : Z) :
  TextDocuments_get (documents (yamlSettings w)) (uri (dsp_textDocument p))
    = Some d ->
  isTest w = false ->
  pc_request (previousCall w) = Some request ->
  pc_time (previousCall w) = Some time ->
  time <> 0%Z ->
  pc_uri (previousCall w) = Some (uri (dsp_textDocument p)) ->
  (clock w (ticks w) - time < 100)%Z ->
  handler p w = (Some request, tick w).
Proof.
  intros Hget Htest Hreq Htime Hnz Huri Hwin.
  unfold documentSymbolHandler, documents_get, gets, mbind, M_bind.
  rewrite Hget.
  unfold cachedDocumentSymbols, gets, getTime, mbind, M_bind, mret, M_ret.
  rewrite Htest, Hreq, Htime.
  destruct (Z.eqb_spec time 0); [contradiction|].
  rewrite bool_decide_eq_true_2 by exact Huri. simpl.
  destruct (Z.ltb_spec (clock w (ticks w) - time) 100); [reflexivity | lia].
Qed.

(** What the guard of the early return answers. *)
Lemma cachedDocumentSymbols_cases (u : js_string) w :
  (exists w0, cachedDocumentSymbols u w = (None, w0) /\ (w0 = w \/ w0 = tick w))
  \/ (exists request time,
        cachedDocumentSymbols u w = (Some request, tick w)
        /\ isTest w = false
        /\ pc_request (previousCall w) = Some request
        /\ pc_time (previousCall w) = Some time
        /\ pc_uri (previousCall w) = Some u).
Proof.
  unfold cachedDocumentSymbols, gets, getTime, mbind, M_bind, mret, M_ret.
  destruct (isTest w); [left; eexists; split; [reflexivity | now left]|].
  destruct (pc_request (previousCall w)) as [request|];
    [|left; eexists; split; [reflexivity | now left]].
  destruct (pc_time (previousCall w)) as [time|];
    [|left; eexists; split; [reflexivity | now left]].
  destruct (time =? 0)%Z; [left; eexists; split; [reflexivity | now left]|].
  destruct (decide (pc_uri (previousCall w) = Some u)) as [Hu|Hu].
  2:{ rewrite bool_decide_eq_false_2 by exact Hu. simpl.
      left; eexists; split; [reflexivity | now left]. }
  rewrite bool_decide_eq_true_2 by exact Hu. simpl.
  destruct (clock w (ticks w) - time <? 100)%Z.
  - right. exists request, time. repeat split; assumption.
  - left; eexists; split; [reflexivity | now right].
Qed.

(** The slow path, run from the world [w0] the guard left. *)
Lemma documentSymbolHandler_miss
    (p : DocumentSymbolParams) (d : TextDocument) w w0 :
  TextDocuments_get (documents (yamlSettings w)) (uri (dsp_textDocument p))
    = Some d ->
  cachedDocumentSymbols (uri (dsp_textDocument p)) w = (None, w0) ->
  w0 = w \/ w0 = tick w ->
  let r := (provider w d (languageService w)).1 in
  let w' := (handler p w).2 in
  (handler p w).1 = Some r
  /\ calls w' = calls w ++ [providerCall w d]
  /\ languageService w' = (provider w d (languageService w)).2
  /\ previousCall w'
     = {| pc_uri := Some (uri (dsp_textDocument p));
          pc_time := Some (clock w (ticks w0));
          pc_request := Some r |}
  /\ isTest w' = isTest w
  /\ yamlSettings w' = yamlSettings w
  /\ clock w' = clock w
  /\ ticks w' = Datatypes.S (ticks w0).
Proof.
  intros Hget Hcached Hw0 r w'. subst r w'.
  unfold documentSymbolHandler, documents_get, gets, mbind, M_bind.
  rewrite Hget, Hcached.
  assert (Hs : languageService w0 = languageService w
               /\ yamlSettings w0 = yamlSettings w
               /\ calls w0 = calls w /\ isTest w0 = isTest w
               /\ clock w0 = clock w).
  { destruct Hw0 as [-> | ->]; repeat split. }
  destruct Hs as (Hs & Hy & Hc & Ht & Hk). rewrite Hy.
  destruct (hierarchicalDocumentSymbolSupport (yamlSettings w));
    unfold languageService_findDocumentSymbols2,
      languageService_findDocumentSymbols,
      record, onService, getTime, setPreviousCall, mbind, M_bind, mret, M_ret;
    simpl; rewrite ?Hs, ?Hc, ?Ht, ?Hy, ?Hk.
  - destruct (findDocumentSymbols2 d (languageService w)); simpl.
    repeat split; congruence.
  - destruct (findDocumentSymbols d (languageService w)); simpl.
    repeat split; congruence.
Qed.

(** X2: a symbol request for an open document makes at most one call to the
    language service.  Either it makes none and answers with the stored
    list, leaving the stored previous call and the service as they were;
    or it makes exactly one, to [findDocumentSymbols2] when hierarchical
    symbols are supported and to [findDocumentSymbols] otherwise, on the
    open document, answers with the list received and stores that list,
    the URI and a reading of the clock as the previous call. *)
Theorem documentSymbolHandler_one_call
    (p : DocumentSymbolParams) (d : TextDocument) w :
  TextDocuments_get (documents (yamlSettings w)) (uri (dsp_textDocument p))
    = Some d ->
  let r := (handler p w).1 in
  let w' := (handler p w).2 in
  (calls w' = calls w
   /\ languageService w' = languageService w
   /\ previousCall w' = previousCall w
   /\ r = pc_request (previousCall w)
   /\ isTest w = false)
  \/ (calls w' = calls w ++ [providerCall w d]
      /\ languageService w' = (provider w d (languageService w)).2
      /\ r = Some (provider w d (languageService w)).1
      /\ pc_request (previousCall w') = r
      /\ pc_uri (previousCall w') = Some (uri (dsp_textDocument p))
      /\ exists n, pc_time (previousCall w') = Some (clock w n)).
Proof.
  intros Hget r w'. subst r w'.
  destruct (cachedDocumentSymbols_cases (uri (dsp_textDocument p)) w)
    as [(w0 & Hnone & Hw0) | (request & time & Hsome & Htest & Hreq & _)].
  - right.
    destruct (documentSymbolHandler_miss p d w w0 Hget Hnone Hw0)
      as (Hr & Hc & Hs & Hp & _).
    rewrite Hr, Hc, Hs, Hp. simpl. repeat split. now eexists.
  - left.
    unfold documentSymbolHandler, documents_get, gets, mbind, M_bind.
    rewrite Hget, Hsome. simpl. rewrite Hreq. repeat split. exact Htest.
Qed.

(** X3: the double call.  Outside test mode, when a symbol request for an
    open document is followed by another one for the same URI and the clock
    then reads less than 100 ms after the non-zero time stamp left by the
    first, the second request returns the very list the first returned,
    makes no call and only reads the clock. *)
Theorem documentSymbolHandler_double_call
    (p : DocumentSymbolParams) (d : TextDocument) w (time : Z) :
  TextDocuments_get (documents (yamlSettings w)) (uri (dsp_textDocument p))
    = Some d ->
  isTest w = false ->
  let r := (handler p w).1 in
  let w1 := (handler p w).2 in
  pc_time (previousCall w1) = Some time ->
  time <> 0%Z ->
  (clock w1 (ticks w1) - time < 100)%Z ->
  handler p w1 = (r, tick w1).
Proof.
  intros Hget Htest r w1 Htime Hnz Hwin.
  assert (Hpost : exists request,
             r = Some request
             /\ pc_request (previousCall w1) = Some request
             /\ pc_uri (previousCall w1) = Some (uri (dsp_textDocument p))
             /\ isTest w1 = false
             /\ yamlSettings w1 = yamlSettings w).
  { subst r w1.
    destruct (cachedDocumentSymbols_cases (uri (dsp_textDocument p)) w)
      as [(w0 & Hnone & Hw0) | (request & t & Hsome & _ & Hreq & _ & Huri)].
    - destruct (documentSymbolHandler_miss p d w w0 Hget Hnone Hw0)
        as (Hr & _ & _ & Hp & Ht & Hy & _).
      eexists. rewrite Hr, Hp, Ht, Hy. simpl. repeat split. exact Htest.
    - exists request.
      unfold documentSymbolHandler, documents_get, gets, mbind, M_bind.
      rewrite Hget, Hsome. simpl. repeat split; assumption. }
  destruct Hpost as (request & Hr & Hreq & Huri & Ht & Hy).
  rewrite Hr. apply (documentSymbolHandler_hit p d w1 request time); try assumption.
  now rewrite Hy.
Qed.

(** X4: for a document that is not open the handler returns [undefined]
    and leaves the world as it was: no call, the stored previous call
    kept, the clock not read. *)
Theorem documentSymbolHandler_unknown_document (p : DocumentSymbolParams) w :
  TextDocuments_get (documents (yamlSettings w)) (uri (dsp_textDocument p))
    = None ->
  handler p w = (None, w).
Proof.
  intros Hget. unfold documentSymbolHandler, documents_get, gets, mbind, M_bind.
  now rewrite Hget.
Qed.
End DocumentSymbol_calls.

(** ** The other handlers *)

Section OtherHandlers_properties.
Context {S Symbol CompletionItem Modification : Type}.
Context {DocumentLink TextEdit Hover FoldingRange CodeAction CodeActionParams : Type}.
Implicit Types w : World S Symbol Modification.

Variable codeAction_textDocument : CodeActionParams -> TextDocumentIdentifier.
Variable findLinks : TextDocument -> S -> list DocumentLink * S.
Variable doFormat : TextDocument -> JsObject -> S -> list TextEdit * S.
Variable doDocumentOnTypeFormatting :
  TextDocument -> DocumentOnTypeFormattingParams -> S -> option (list TextEdit) * S.
Variable doHoverDetail : option TextDocument -> Position -> S -> option Hover * S.
Variable getFoldingRanges :
  TextDocument -> option FoldingRangeClientCapabilities -> S
  -> option (list FoldingRange) * S.
Variable getCodeAction :
  TextDocument -> CodeActionParams -> S -> option (list CodeAction) * S.
Variable doComplete :
  TextDocument -> Position -> bool -> S -> CompletionList CompletionItem * S.
Variable isKubernetesAssociatedDocument :
  TextDocument -> list js_string -> bool.

Local Abbreviation closed w u :=
  (TextDocuments_get (documents (yamlSettings w)) u = None).
Local Abbreviation opened w u d :=
  (TextDocuments_get (documents (yamlSettings w)) u = Some d).

(** X5: for a document that is not open, the link handler resolves to the
    empty list and the formatting, on-type formatting, hover, folding range
    and code action handlers return [undefined]; none of them touches the
    language service, whatever its methods would do, and the folding range
    handler does not even look at the client capabilities. *)
Theorem handlers_unknown_document (u : js_string) w
    (yamlFormatterSettings : JsObject) (capabilities : ClientCapabilities) :
  closed w u ->
  (forall params, uri (dlp_textDocument params) = u ->
     documentLinkHandler findLinks params w = ([], w))
  /\ (forall params, uri (dfp_textDocument params) = u ->
       formatterHandler doFormat yamlFormatterSettings params w = (None, w))
  /\ (forall params, uri (otf_textDocument params) = u ->
       formatOnTypeHandler doDocumentOnTypeFormatting params w = (None, w))
  /\ (forall params, uri (textDocument params) = u ->
       hoverHandler doHoverDetail params w = (None, w))
  /\ (forall params, uri (frp_textDocument params) = u ->
       foldingRangeHandler getFoldingRanges capabilities params w
       = (Normal None, w))
  /\ (forall params, uri (codeAction_textDocument params) = u ->
       codeActionHandler codeAction_textDocument getCodeAction params w
       = (None, w)).
Proof.
  intros Hget.
  repeat split; intros params Hu;
    unfold documentLinkHandler, formatterHandler, formatOnTypeHandler,
      hoverHandler, foldingRangeHandler, codeActionHandler,
      documents_get, gets, mbind, M_bind;
    now rewrite Hu, Hget.
Qed.

(** X6: for an open document [formatterHandler] formats with the settings
    object made of [yamlFormatterSettings] and a [tabWidth]: the
    [tabWidth] of [yamlFormatterSettings] when it has one, the [tabSize] of
    the request otherwise. *)
Theorem formatterHandler_tabWidth
    (yamlFormatterSettings : JsObject) (params : DocumentFormattingParams)
    (d : TextDocument) w :
  opened w (uri (dfp_textDocument params)) d ->
  exists customFormatterSettings : JsObject,
    formatterHandler doFormat yamlFormatterSettings params w
    = (Some (doFormat d customFormatterSettings (languageService w)).1,
       setService (doFormat d customFormatterSettings (languageService w)).2 w)
    /\ customFormatterSettings !! utf16 "tabWidth"
       = Some (default (JsNumber (Z.of_N (tabSize (dfp_options params))))
                 (yamlFormatterSettings !! utf16 "tabWidth"))
    /\ forall k, k <> utf16 "tabWidth" ->
         customFormatterSettings !! k = yamlFormatterSettings !! k.
Proof.
  intros Hget.
  exists (objectSpread
            {[ utf16 "tabWidth" := JsNumber (Z.of_N (tabSize (dfp_options params))) ]}
            yamlFormatterSettings).
  split; [|split].
  - unfold formatterHandler, documents_get, gets, onService, mbind, M_bind,
      mret, M_ret.
    rewrite Hget. now destruct doFormat.
  - unfold objectSpread. rewrite lookup_union, lookup_singleton_eq.
    now destruct (yamlFormatterSettings !! utf16 "tabWidth").
  - intros k Hk. unfold objectSpread.
    rewrite lookup_union, lookup_singleton_ne by congruence.
    now destruct (yamlFormatterSettings !! k).
Qed.

(** X7: for an open document [foldingRangeHandler] throws a [TypeError],
    before any call to the language service, when the client capabilities
    have no [textDocument] member; with that member it returns what
    [getFoldingRanges] returns for the document and the [foldingRange]
    capabilities. *)
Theorem foldingRangeHandler_capabilities
    (capabilities : ClientCapabilities) (params : FoldingRangeParams)
    (d : TextDocument) w :
  opened w (uri (frp_textDocument params)) d ->
  (cc_textDocument capabilities = None ->
     foldingRangeHandler getFoldingRanges capabilities params w
     = (Throw TypeError, w))
  /\ (forall textDocumentCapabilities,
        cc_textDocument capabilities = Some textDocumentCapabilities ->
        let r := getFoldingRanges d (tdc_foldingRange textDocumentCapabilities)
                   (languageService w) in
        foldingRangeHandler getFoldingRanges capabilities params w
        = (Normal r.1, setService r.2 w)).
Proof.
  intros Hget. split.
  - intros Hc. unfold foldingRangeHandler, documents_get, gets, mbind, M_bind.
    now rewrite Hget, Hc.
  - intros tdc Hc r. subst r.
    unfold foldingRangeHandler, documents_get, gets, onService, mbind, M_bind,
      mret, M_ret.
    rewrite Hget, Hc. now destruct getFoldingRanges.
Qed.

(** X8: the handler of the hover detail request hands the document to
    [doHoverDetail] as [documents.get] returned it: for an open document it
    does what [hoverHandler] does, for a document that is not open it calls
    [doHoverDetail] with [undefined] where [hoverHandler] makes no call. *)
Theorem hoverDetailRequestHandler_forwards (params : TextDocumentPositionParams) w :
  (forall d, opened w (uri (textDocument params)) d ->
     hoverDetailRequestHandler doHoverDetail params w
     = hoverHandler doHoverDetail params w)
  /\ (closed w (uri (textDocument params)) ->
      hoverDetailRequestHandler doHoverDetail params w
      = ((doHoverDetail None (position params) (languageService w)).1,
         setService (doHoverDetail None (position params) (languageService w)).2 w)
      /\ hoverHandler doHoverDetail params w = (None, w)).
Proof.
  split.
  - intros d Hget.
    unfold hoverDetailRequestHandler, hoverHandler, documents_get, gets,
      mbind, M_bind.
    now rewrite Hget.
  - intros Hget.
    unfold hoverDetailRequestHandler, hoverHandler, documents_get, gets,
      onService, mbind, M_bind.
    rewrite Hget. split; [now destruct doHoverDetail | reflexivity].
Qed.

(** X9: for an open document [completionHandler] resolves to what
    [doComplete] returns for the document, the position of the request and
    the Kubernetes flag that [isKubernetesAssociatedDocument] gives for the
    document and the configured validator paths; that call is the only one
    it makes. *)
Theorem completionHandler_forwards
    (params : TextDocumentPositionParams) (d : TextDocument) w :
  opened w (uri (textDocument params)) d ->
  let isKubernetes :=
    isKubernetesAssociatedDocument d (specificValidatorPaths (yamlSettings w)) in
  let r := doComplete d (position params) isKubernetes (languageService w) in
  completionHandler doComplete isKubernetesAssociatedDocument params w
  = (r.1, setService r.2
            (addCalls [Call_doComplete d (position params) isKubernetes] w)).
Proof.
  intros Hget isKubernetes r. subst r isKubernetes.
  unfold completionHandler, documents_get, gets, mbind, M_bind.
  rewrite Hget.
  unfold languageService_doComplete, record, onService, mbind, M_bind.
  simpl. now destruct doComplete.
Qed.
End OtherHandlers_properties.

(** ** What the notification handlers leave alone *)

Section Frame_properties.
Context {S Symbol Modification Action : Type} `{EqDecision Action}.
Implicit Types w : World S Symbol Modification.

Variable resetSchema : js_string -> S -> bool * S.
Variable action : Modification -> Action.
Variables ADD DELETE DELETE_ALL : Action.
Variables modifySchemaContent deleteSchemaContent deleteSchemasWhole :
  Modification -> S -> S.

(** X10: [watchedFilesHandler] acts on the language service and on nothing
    else of the handlers' state: the open documents and the settings, the
    test switch, the stored previous symbol call and the clock are as
    before; a notification without any change does nothing at all. *)
Theorem watchedFilesHandler_frame (change : DidChangeWatchedFilesParams) w :
  let w' := (watchedFilesHandler resetSchema change w).2 in
  yamlSettings w' = yamlSettings w
  /\ isTest w' = isTest w
  /\ previousCall w' = previousCall w
  /\ clock w' = clock w
  /\ ticks w' = ticks w
  /\ (changes change = [] -> w' = w).
Proof.
  intros w'. subst w'.
  assert (Hframe :
            yamlSettings (watchedFilesHandler resetSchema change w).2 = yamlSettings w
            /\ isTest (watchedFilesHandler resetSchema change w).2 = isTest w
            /\ previousCall (watchedFilesHandler resetSchema change w).2 = previousCall w
            /\ clock (watchedFilesHandler resetSchema change w).2 = clock w
            /\ ticks (watchedFilesHandler resetSchema change w).2 = ticks w).
  { unfold watchedFilesHandler, mbind, M_bind.
    rewrite resetChanged_run. simpl.
    destruct (existsb id _); [|now repeat split].
    unfold documents_all, gets. rewrite forEach_validate. now repeat split. }
  destruct Hframe as (Hy & Ht & Hp & Hc & Hk).
  repeat split; try assumption.
  intros Hnil. unfold watchedFilesHandler. now rewrite Hnil.
Qed.

(** X11: a schema modification request never leads to a [validate] call:
    whatever its tag, the handler makes at most one call, none of them to
    the validation handler, and the open documents and settings stay as
    they were. *)
Theorem schemaModification_never_validates (m : Modification) w :
  let w' :=
    (registerSchemaModificationNotificationHandler action
       ADD DELETE DELETE_ALL
       modifySchemaContent deleteSchemaContent deleteSchemasWhole m w).2 in
  yamlSettings w' = yamlSettings w
  /\ exists cs, calls w' = calls w ++ cs
               /\ (length cs <= 1)%nat
               /\ forall d, Call_validate d ∉ cs.
Proof.
  intros w'. subst w'. unfold registerSchemaModificationNotificationHandler.
  repeat case_decide; (split; [reflexivity|]).
  - exists [Call_modifySchemaContent m]. split; [reflexivity|split; [simpl; lia|]].
    intros d Hin. apply list_elem_of_singleton in Hin. discriminate.
  - exists [Call_deleteSchemaContent m]. split; [reflexivity|split; [simpl; lia|]].
    intros d Hin. apply list_elem_of_singleton in Hin. discriminate.
  - exists [Call_deleteSchemasWhole m]. split; [reflexivity|split; [simpl; lia|]].
    intros d Hin. apply list_elem_of_singleton in Hin. discriminate.
  - exists []. simpl. rewrite app_nil_r. split; [reflexivity|split; [simpl; lia|]].
    intros d Hin. inversion Hin.
Qed.
End Frame_properties.

(** ** Initialisation of the server *)

Section Init_properties.
Context {S Symbol Modification : Type}.

Variable getCustomLanguageService : ClientCapabilities -> S.
Variable URI_parse : js_string -> URI.
Variable YamlCommands : list js_string.
Variable systemClock : nat -> Z.
Variables findDocumentSymbols findDocumentSymbols2 :
  TextDocument -> S -> list Symbol * S.

Local Abbreviation init params server :=
  (connectionInitialized (Symbol := Symbol) (Modification := Modification)
     getCustomLanguageService URI_parse YamlCommands systemClock params server).

(** The client declares the hierarchical document symbol support. *)
Local Abbreviation declaresHierarchicalSymbols capabilities :=
  (exists textDocument documentSymbol,
      cc_textDocument capabilities = Some textDocument
      /\ tdc_documentSymbol textDocument = Some documentSymbol
      /\ dsc_hierarchicalDocumentSymbolSupport documentSymbol = Some true).

Lemma connectionInitialized_hierarchical
    (params : InitializeParams) (server : YAMLServerInit S Symbol Modification) :
  hierarchicalDocumentSymbolSupport
    (ys_core (si_yamlSettings (init params server).1)) = true
  <-> declaresHierarchicalSymbols (ip_capabilities params).
Proof.
  simpl. split.
  - destruct (cc_textDocument (ip_capabilities params)) as [td|]; [|discriminate].
    destruct (tdc_documentSymbol td) as [ds|] eqn:Eds; [|discriminate].
    destruct (dsc_hierarchicalDocumentSymbolSupport ds) as [[|]|] eqn:Eh;
      try discriminate.
    intros _. now exists td, ds.
  - intros (td & ds & -> & -> & ->). reflexivity.
Qed.

(** X12: after [connectionInitialized], the first symbol request for a
    document that was open is answered by the language service just
    created: by its [findDocumentSymbols2] when the client capabilities
    declare [textDocument.documentSymbol.hierarchicalDocumentSymbolSupport],
    by its [findDocumentSymbols] when any part of that is missing or
    false; the call is the only one made. *)
Theorem connectionInitialized_then_documentSymbol
    (params : InitializeParams) (server : YAMLServerInit S Symbol Modification)
    (p : DocumentSymbolParams) (d : TextDocument) :
  TextDocuments_get (documents (ys_core (si_yamlSettings server)))
    (uri (dsp_textDocument p)) = Some d ->
  exists w,
    si_languageHandler (init params server).1 = Some w
    /\ (declaresHierarchicalSymbols (ip_capabilities params) ->
        (documentSymbolHandler findDocumentSymbols findDocumentSymbols2 p w).1
        = Some (findDocumentSymbols2 d
                  (getCustomLanguageService (ip_capabilities params))).1
        /\ calls (documentSymbolHandler findDocumentSymbols findDocumentSymbols2 p w).2
           = [Call_findDocumentSymbols2 d])
    /\ (~ declaresHierarchicalSymbols (ip_capabilities params) ->
        (documentSymbolHandler findDocumentSymbols findDocumentSymbols2 p w).1
        = Some (findDocumentSymbols d
                  (getCustomLanguageService (ip_capabilities params))).1
        /\ calls (documentSymbolHandler findDocumentSymbols findDocumentSymbols2 p w).2
           = [Call_findDocumentSymbols d]).
Proof.
  intros Hget. eexists. split; [reflexivity|].
  pose proof (connectionInitialized_hierarchical params server) as Hflag.
  set (w := initialWorld _ _ _).
  assert (Hopen : TextDocuments_get (documents (yamlSettings w))
                    (uri (dsp_textDocument p)) = Some d) by exact Hget.
  assert (Hmiss : cachedDocumentSymbols (uri (dsp_textDocument p)) w = (None, w))
    by reflexivity.
  destruct (documentSymbolHandler_miss findDocumentSymbols findDocumentSymbols2
              p d w w Hopen Hmiss (or_introl eq_refl))
    as (Hr & Hc & _).
  rewrite Hr, Hc.
  change (hierarchicalDocumentSymbolSupport (yamlSettings w))
    with (hierarchicalDocumentSymbolSupport
            (ys_core (si_yamlSettings (init params server).1))).
  split.
  - intros Hd. apply Hflag in Hd. rewrite Hd. now split.
  - intros Hd.
    destruct (hierarchicalDocumentSymbolSupport
                (ys_core (si_yamlSettings (init params server).1))) eqn:E.
    + exfalso. apply Hd. now apply Hflag.
    + now split.
Qed.

(** X13: [connectionInitialized] keeps the open documents and the validator
    paths and stores the client capabilities; it replaces the workspace
    folders by those of the client, by the empty list when the client
    names none, and it replaces the workspace root only when the client
    names a non-empty root URI. *)
Theorem connectionInitialized_workspace
    (params : InitializeParams) (server : YAMLServerInit S Symbol Modification) :
  let before := si_yamlSettings server in
  let after := si_yamlSettings (init params server).1 in
  documents (ys_core after) = documents (ys_core before)
  /\ specificValidatorPaths (ys_core after) = specificValidatorPaths (ys_core before)
  /\ ys_capabilities after = Some (ip_capabilities params)
  /\ (ip_workspaceFolders params = None -> ys_workspaceFolders after = [])
  /\ (forall folders, ip_workspaceFolders params = Some folders ->
        ys_workspaceFolders after = folders)
  /\ (ip_rootUri params = None \/ ip_rootUri params = Some [] ->
      ys_workspaceRoot after = ys_workspaceRoot before)
  /\ (forall c rest, ip_rootUri params = Some (c :: rest) ->
        ys_workspaceRoot after = Some (URI_parse (c :: rest))).
Proof.
  intros before after. subst before after. simpl.
  split; [reflexivity|]. split; [reflexivity|]. split; [reflexivity|].
  split; [now intros ->|]. split; [now intros folders ->|].
  split; [now intros [-> | ->] | now intros c rest ->].
Qed.

(** X14: after [connectionInitialized], [onInitialized] registers the
    listener for workspace folder changes exactly when the client
    capabilities have a [workspace] member whose [workspaceFolders] is
    [true]; without a [workspace] member the stored flag is [undefined]. *)
Theorem onInitialized_registers_listener
    (params : InitializeParams) (server : YAMLServerInit S Symbol Modification) :
  (onInitialized (init params server).1 = true
   <-> exists workspace,
         cc_workspace (ip_capabilities params) = Some workspace
         /\ wcc_workspaceFolders workspace = Some true)
  /\ (cc_workspace (ip_capabilities params) = None ->
      ys_hasWorkspaceFolderCapability (si_yamlSettings (init params server).1)
      = None).
Proof.
  unfold onInitialized. simpl. split; [split|].
  - destruct (cc_workspace (ip_capabilities params)) as [ws|]; [|discriminate].
    simpl. destruct (wcc_workspaceFolders ws) as [[|]|] eqn:Ews; try discriminate.
    intros _. now exists ws.
  - intros (ws & -> & Hws). simpl. now rewrite Hws.
  - now intros ->.
Qed.
End Init_properties.

(** ** Runs of the further properties on the sample data *)

Lemma checkSchemaURI_alias_padding_witness :
  Forall (fun c => isWhiteSpace c = true) [9; 32]
  /\ Forall (fun c => isWhiteSpace c = true) [160; 10]
  /\ sampleCheckSchemaURI sampleFolders sampleRoot
       ([9; 32] ++ utf16 "Kubernetes" ++ [160; 10])
     = KUBERNETES_SCHEMA_URL.
Proof.
  assert (Hb : Forall (fun c => isWhiteSpace c = true) [9; 32])
    by (repeat constructor).
  assert (Ha : Forall (fun c => isWhiteSpace c = true) [160; 10])
    by (repeat constructor).
  split; [exact Hb|]. split; [exact Ha|].
  apply (proj2 (checkSchemaURI_alias_padding sampleUnicodeLower SampleFolder URI
                  isRelativePath (relativeToAbsolutePath sampleResolveInFolder)
                  sampleFolders sampleRoot [9; 32] [160; 10]
                  (utf16 "Kubernetes") Hb Ha)).
  vm_compute; reflexivity.
Defined.

Lemma documentSymbolHandler_one_call_witness :
  calls (sampleDocumentSymbolHandler sampleSymbolParams sampleWorld).2
  = [Call_findDocumentSymbols2 sampleDocumentA]
  /\ calls (sampleDocumentSymbolHandler sampleSymbolParams sampleWorldAfterEdit).2
     = calls sampleWorldAfterEdit.
Proof.
  split.
  - destruct (documentSymbolHandler_one_call
                sampleFindDocumentSymbols sampleFindDocumentSymbols
                sampleSymbolParams sampleDocumentA sampleWorld eq_refl)
      as [(_ & _ & _ & _ & _) | (Hc & _)]; vm_compute; reflexivity.
  - vm_compute; reflexivity.
Defined.

Lemma documentSymbolHandler_double_call_witness :
  sampleDocumentSymbolHandler sampleSymbolParams sampleWorldAfterRequest
  = ((sampleDocumentSymbolHandler sampleSymbolParams sampleWorld).1,
     tick sampleWorldAfterRequest).
Proof.
  refine (documentSymbolHandler_double_call
            sampleFindDocumentSymbols sampleFindDocumentSymbols
            sampleSymbolParams sampleDocumentA sampleWorld 1000%Z
            _ _ _ _ _);
    try (vm_compute; reflexivity).
  discriminate.
Defined.

Lemma documentSymbolHandler_unknown_document_witness :
  sampleDocumentSymbolHandler {| dsp_textDocument := sampleClosedDocument |}
    sampleWorldAfterRequest
  = (None, sampleWorldAfterRequest).
Proof.
  apply documentSymbolHandler_unknown_document. vm_compute; reflexivity.
Defined.

Lemma handlers_unknown_document_witness :
  documentLinkHandler (Symbol := js_string) (Modification := SampleRequest)
    sampleFindLinks {| dlp_textDocument := sampleClosedDocument |} sampleWorld
  = ([], sampleWorld)
  /\ foldingRangeHandler (Symbol := js_string) (Modification := SampleRequest)
       sampleGetFoldingRanges sampleBareCapabilities
       {| frp_textDocument := sampleClosedDocument |} sampleWorld
     = (Normal None, sampleWorld).
Proof.
  pose proof (handlers_unknown_document
                (fun t : TextDocumentIdentifier => t)
                sampleFindLinks sampleDoFormat sampleDoDocumentOnTypeFormatting
                sampleDoHoverDetail sampleGetFoldingRanges sampleGetCodeAction
                (utf16 "file:///w/closed.yaml") sampleWorld
                sampleFormatterSettings sampleBareCapabilities eq_refl)
    as (Hlink & _ & _ & _ & Hfold & _).
  split; [now apply Hlink | now apply Hfold].
Defined.

Lemma formatterHandler_tabWidth_witness :
  exists options : JsObject,
    (formatterHandler (Symbol := js_string) (Modification := SampleRequest)
       sampleDoFormat sampleFormatterSettings sampleFormattingParams sampleWorld).1
    = Some (sampleDoFormat sampleDocumentA options sampleStore).1
    /\ options !! utf16 "tabWidth" = Some (JsNumber 4)
    /\ options !! utf16 "printWidth" = Some (JsNumber 80).
Proof.
  destruct (formatterHandler_tabWidth (Symbol := js_string)
              (Modification := SampleRequest)
              sampleDoFormat sampleFormatterSettings sampleFormattingParams
              sampleDocumentA sampleWorld eq_refl)
    as (options & Hrun & Htab & Hrest).
  exists options. split; [now rewrite Hrun|]. split.
  - rewrite Htab. reflexivity.
  - rewrite Hrest by discriminate. reflexivity.
Defined.

Lemma foldingRangeHandler_capabilities_witness :
  foldingRangeHandler (Symbol := js_string) (Modification := SampleRequest)
    sampleGetFoldingRanges sampleBareCapabilities
    {| frp_textDocument := sampleOpenDocument |} sampleWorld
  = (Throw TypeError, sampleWorld).
Proof.
  exact (proj1 (foldingRangeHandler_capabilities
                  sampleGetFoldingRanges sampleBareCapabilities
                  {| frp_textDocument := sampleOpenDocument |}
                  sampleDocumentA sampleWorld eq_refl) eq_refl).
Defined.

Lemma hoverDetailRequestHandler_forwards_witness :
  (hoverDetailRequestHandler (Symbol := js_string) (Modification := SampleRequest)
     sampleDoHoverDetail (samplePositionParams sampleClosedDocument) sampleWorld).1
  = (sampleDoHoverDetail None {| line := 0; character := 0 |} sampleStore).1
  /\ hoverDetailRequestHandler (Symbol := js_string) (Modification := SampleRequest)
       sampleDoHoverDetail (samplePositionParams sampleOpenDocument) sampleWorld
     = hoverHandler sampleDoHoverDetail (samplePositionParams sampleOpenDocument)
         sampleWorld.
Proof.
  split.
  - destruct (proj2 (hoverDetailRequestHandler_forwards
                       sampleDoHoverDetail
                       (samplePositionParams sampleClosedDocument) sampleWorld)
                eq_refl) as [Hrun _].
    now rewrite Hrun.
  - exact (proj1 (hoverDetailRequestHandler_forwards
                    sampleDoHoverDetail
                    (samplePositionParams sampleOpenDocument) sampleWorld)
             sampleDocumentA eq_refl).
Defined.

Lemma completionHandler_forwards_witness :
  (sampleCompletionHandler (samplePositionParams sampleOpenDocument) sampleWorld).1
  = {| items := [utf16 "kind: Pod"]; isIncomplete := false |}.
Proof.
  unfold sampleCompletionHandler.
  rewrite (completionHandler_forwards sampleDoComplete
             sampleIsKubernetesAssociatedDocument
             (samplePositionParams sampleOpenDocument) sampleDocumentA
             sampleWorld eq_refl).
  reflexivity.
Defined.

Lemma watchedFilesHandler_frame_witness :
  (sampleWatchedFilesHandler {| changes := [] |} sampleWorldAfterRequest).2
  = sampleWorldAfterRequest.
Proof.
  apply (watchedFilesHandler_frame (store_resetSchema (Fragment := js_string))
           {| changes := [] |} sampleWorldAfterRequest).
  reflexivity.
Defined.

Lemma schemaModification_never_validates_witness :
  exists cs,
    calls (sampleRequestHandler sampleAddition sampleWorld).2
    = calls sampleWorld ++ cs
    /\ forall d, Call_validate d ∉ cs.
Proof.
  destruct (schemaModification_never_validates
              (fst : SampleRequest -> N) 1 0 2
              (fun m => store_modifySchemaContent m.2)
              (fun m => store_deleteSchemaContent m.2)
              (fun m => store_deleteSchemasWhole m.2)
              sampleAddition sampleWorld)
    as (_ & cs & Hcs & _ & Hno).
  exists cs. split; [exact Hcs | exact Hno].
Defined.

Lemma connectionInitialized_then_documentSymbol_witness :
  exists w,
    si_languageHandler (sampleConnectionInitialized sampleInitializeParams sampleServer).1
    = Some w
    /\ calls (sampleDocumentSymbolHandler sampleSymbolParams w).2
       = [Call_findDocumentSymbols2 sampleDocumentA].
Proof.
  destruct (connectionInitialized_then_documentSymbol
              (fun _ => sampleStore) sampleURIParse [] sampleClock
              sampleFindDocumentSymbols sampleFindDocumentSymbols
              sampleInitializeParams sampleServer sampleSymbolParams
              sampleDocumentA eq_refl)
    as (w & Hw & Hdeclared & _).
  exists w. split; [exact Hw|].
  apply Hdeclared. eexists _, _. repeat split.
Defined.

Lemma connectionInitialized_workspace_witness :
  ys_workspaceFolders
    (si_yamlSettings (sampleConnectionInitialized sampleInitializeParams sampleServer).1)
  = []
  /\ ys_workspaceRoot
       (si_yamlSettings (sampleConnectionInitialized sampleInitializeParams sampleServer).1)
     = Some sampleRoot.
Proof.
  pose proof (connectionInitialized_workspace
                (fun _ => sampleStore) sampleURIParse [] sampleClock
                sampleInitializeParams sampleServer)
    as (_ & _ & _ & Hfolders & _ & Hroot & _).
  split; [now apply Hfolders | apply Hroot; now left].
Defined.

Lemma onInitialized_registers_listener_witness :
  onInitialized (sampleConnectionInitialized sampleInitializeParams sampleServer).1
  = true.
Proof.
  apply (proj1 (onInitialized_registers_listener
                  (fun _ => sampleStore) sampleURIParse [] sampleClock
                  sampleInitializeParams sampleServer)).
  eexists. split; reflexivity.
Defined.
